(** * Synthetic dataset generator of the data platform

    A shallow embedding of [scripts/generate_sample_data.py] and
    [simple_data_generator.py]: the user, event and session generators, the
    session fold, and the properties the specification states about them.

    Conventions of the embedding.
    - A naive [datetime] is the integer number of microseconds since
      1970-01-01T00:00:00.  Python confines datetimes to the years 1..9999 and
      raises [OverflowError] beyond; the embedding does not model that limit,
      and a statement that a run completes is made only where
      [representable] keeps every date inside it.  The source stores
      timestamps as
      [isoformat() + "Z"] strings and reads them back with
      [fromisoformat(s.replace("Z", ""))]; that round trip is the identity on
      datetimes, so records carry the datetime itself.
    - A Python [dict] used as a store keeps its keys in insertion order: it is
      an association list with unique keys.
    - The three sources of non-determinism the scripts read, the [random]
      module, [uuid.uuid4()] (operating-system entropy) and [datetime.now()],
      are oracles indexed by the number of reads made so far. *)

From Stdlib Require Import ZArith List String Ascii Lia Bool Permutation.
Import ListNotations.
Open Scope Z_scope.

(** ** Datetimes *)

Definition datetime := Z.

Definition usec_per_second : Z := 1000000.
Definition usec_per_minute : Z := 60 * usec_per_second.
Definition usec_per_hour : Z := 60 * usec_per_minute.
Definition usec_per_day : Z := 24 * usec_per_hour.

(** [timedelta(days=d, hours=h, minutes=m)] *)
Definition timedelta (days hours minutes : Z) : Z :=
  days * usec_per_day + hours * usec_per_hour + minutes * usec_per_minute.

(** [dt.date()], as the number of the calendar day. *)
Definition date (dt : datetime) : Z := dt / usec_per_day.

(** [datetime.min] and [datetime.max], and the largest day count of a
    [timedelta]. *)
Definition datetime_min : datetime := - 62135596800 * usec_per_second.
Definition datetime_max : datetime := 253402300800 * usec_per_second - 1.
Definition timedelta_max_days : Z := 999999999.

Definition representable (dt : datetime) : Prop :=
  datetime_min <= dt <= datetime_max.

(** The integer nearest to [n / d], ties to the even one ([0 <= n], [0 < d]). *)
Definition round_half_even (n d : Z) : Z :=
  let q := n / d in
  let r := n mod d in
  if 2 * r <? d then q
  else if d <? 2 * r then q + 1
  else if Z.even q then q else q + 1.

(** [int(a / b)] for integers [0 <= a] and [0 < b < 2^53]: Python's true
    division returns the binary64 float nearest to the quotient (53
    significant bits, ties to even) and [int] drops its fractional part.
    A quotient below 1 rounds to a float below 1; a quotient in
    [2^p .. 2^(p+1)) is rounded to a multiple of [2^(p-52)]. *)
Definition true_divide_int (a b : Z) : Z :=
  if a <? b then 0
  else
    let e := Z.log2 (a / b) - 52 in
    if e <? 0 then round_half_even (a * 2 ^ (- e)) b / 2 ^ (- e)
    else round_half_even a (b * 2 ^ e) * 2 ^ e.

(** [int(td.total_seconds())]: [total_seconds] is the float
    [microseconds / 10**6], and [int] truncates toward zero. *)
Definition total_seconds_int (td : Z) : Z :=
  Z.sgn td * true_divide_int (Z.abs td) usec_per_second.

(** ** Records *)

(** Values of the metadata maps before [json.dumps]. *)
Inductive jval :=
| JStr (s : string)
| JInt (n : Z)
| JCents (hundredths : Z)   (* a float rounded to two decimals *)
| JNull.

Definition jdict := list (string * jval).

Module User.
Record t := mk {
  user_id : string;
  email : string;
  created_at : datetime;
  updated_at : datetime;
  first_name : string;
  last_name : string;
  country : string;
  timezone : string;
  subscription_tier : string;
  metadata : jdict
}.
End User.

Module Event.
Record t := mk {
  event_id : string;
  user_id : string;
  event_type : string;
  event_timestamp : datetime;
  session_id : string;
  device_type : string;
  platform : string;
  app_version : string;
  metadata : jdict;
  created_at : datetime
}.
End Event.

Module Session.
Record t := mk {
  session_id : string;
  user_id : string;
  started_at : datetime;
  ended_at : option datetime;
  duration_seconds : option Z;
  page_views : Z;
  events_count : Z;
  device_type : string;
  platform : string;
  country : option string;
  metadata : jdict
}.

Definition set_events_count (s : t) (n : Z) : t :=
  mk (session_id s) (user_id s) (started_at s) (ended_at s)
     (duration_seconds s) (page_views s) n (device_type s) (platform s)
     (country s) (metadata s).

Definition set_page_views (s : t) (n : Z) : t :=
  mk (session_id s) (user_id s) (started_at s) (ended_at s)
     (duration_seconds s) n (events_count s) (device_type s) (platform s)
     (country s) (metadata s).

Definition set_ended_at (s : t) (e : option datetime) : t :=
  mk (session_id s) (user_id s) (started_at s) e
     (duration_seconds s) (page_views s) (events_count s) (device_type s)
     (platform s) (country s) (metadata s).

Definition set_duration_seconds (s : t) (d : option Z) : t :=
  mk (session_id s) (user_id s) (started_at s) (ended_at s)
     d (page_views s) (events_count s) (device_type s)
     (platform s) (country s) (metadata s).
End Session.

(** ** Insertion-ordered dictionaries with string keys *)

Section Dict.
Context {V : Type}.

Definition dict := list (string * V).

Fixpoint dict_get (d : dict) (k : string) : option V :=
  match d with
  | [] => None
  | (k', v) :: d' => if String.eqb k' k then Some v else dict_get d' k
  end.

Definition dict_mem (k : string) (d : dict) : bool :=
  match dict_get d k with Some _ => true | None => false end.

(** [d[k] = v]: replaces the value in place, or appends a new key. *)
Fixpoint dict_set (d : dict) (k : string) (v : V) : dict :=
  match d with
  | [] => [(k, v)]
  | (k', v') :: d' =>
      if String.eqb k' k then (k', v) :: d' else (k', v') :: dict_set d' k v
  end.

Definition dict_keys (d : dict) : list string := map fst d.
Definition dict_values (d : dict) : list V := map snd d.
End Dict.
Arguments dict : clear implicits.

(** ** Session derivation ([generate_session_data]) *)

Definition sessions_t := dict Session.t.

(** The record stored the first time a session identifier is met. *)
Definition new_session (event : Event.t) : Session.t :=
  Session.mk (Event.session_id event) (Event.user_id event)
             (Event.event_timestamp event) None None 0 0
             (Event.device_type event) (Event.platform event) None [].

(** The three updates of the loop body on the stored record. *)
Definition absorb_event (s : Session.t) (event : Event.t) : Session.t :=
  let event_time := Event.event_timestamp event in
  let s := Session.set_events_count s (Session.events_count s + 1) in
  let s := if String.eqb (Event.event_type event) "page_view"
           then Session.set_page_views s (Session.page_views s + 1) else s in
  match Session.ended_at s with
  | None => Session.set_ended_at s (Some event_time)
  | Some ended =>
      if event_time >? ended then Session.set_ended_at s (Some event_time)
      else s
  end.

(** One iteration of [for event in events]. *)
Definition fold_event (sessions : sessions_t) (event : Event.t) : sessions_t :=
  let session_id := Event.session_id event in
  let sessions :=
    if dict_mem session_id sessions then sessions
    else dict_set sessions session_id (new_session event) in
  match dict_get sessions session_id with
  | Some s => dict_set sessions session_id (absorb_event s event)
  | None => sessions   (* not reached: the key was just inserted *)
  end.

(** The second loop: [if session["ended_at"]: duration_seconds = ...]. *)
Definition set_duration (s : Session.t) : Session.t :=
  match Session.ended_at s with
  | Some ended =>
      Session.set_duration_seconds s
        (Some (total_seconds_int (ended - Session.started_at s)))
  | None => s
  end.

Definition session_store (events : list Event.t) : sessions_t :=
  fold_left fold_event events [].

Definition generate_session_data (events : list Event.t) : list Session.t :=
  map set_duration (dict_values (session_store events)).

(** ** The generator monad

    A generator reads the three oracles through cursors and may raise a
    Python exception.  Exceptions are told apart by their class; the text of
    their messages varies between versions of the interpreter. *)

Inductive pyerror :=
| ValueError
| IndexError.

Inductive result (A : Type) :=
| Ok (a : A)
| Raise (e : pyerror).
Arguments Ok {A} a.
Arguments Raise {A} e.

Record world := mk_world {
  random_draw : N -> Z;      (* raw draws of the [random] module *)
  os_entropy : N -> Z;       (* entropy behind [uuid.uuid4()] *)
  wall_clock : N -> datetime (* successive readings of [datetime.now()] *)
}.

Record cursor := mk_cursor {
  random_pos : N;
  entropy_pos : N;
  clock_pos : N
}.

Definition start : cursor := mk_cursor 0%N 0%N 0%N.

Definition gen (A : Type) : Type := world -> cursor -> result (A * cursor).

(** What a generator returns when run from the first reading of each oracle. *)
Definition outcome {A} (m : gen A) (w : world) : result A :=
  match m w start with
  | Ok (a, _) => Ok a
  | Raise e => Raise e
  end.

Definition ret {A} (a : A) : gen A := fun _ c => Ok (a, c).

Definition bind {A B} (m : gen A) (k : A -> gen B) : gen B :=
  fun w c =>
    match m w c with
    | Ok (a, c') => k a w c'
    | Raise e => Raise e
    end.

Definition raise {A} (e : pyerror) : gen A := fun _ _ => Raise e.

Declare Scope gen_scope.
Delimit Scope gen_scope with gen.
Notation "x <- m ;; k" := (bind m (fun x => k))
  (at level 61, m at next level, right associativity) : gen_scope.
Open Scope gen_scope.

Definition next_random : gen Z :=
  fun w c =>
    Ok (random_draw w (random_pos c),
        mk_cursor (N.succ (random_pos c)) (entropy_pos c) (clock_pos c)).

Definition next_entropy : gen Z :=
  fun w c =>
    Ok (os_entropy w (entropy_pos c),
        mk_cursor (random_pos c) (N.succ (entropy_pos c)) (clock_pos c)).

(** [datetime.now()] *)
Definition now : gen datetime :=
  fun w c =>
    Ok (wall_clock w (clock_pos c),
        mk_cursor (random_pos c) (entropy_pos c) (N.succ (clock_pos c))).

(** [random.randint(a, b)]: some integer of [a..b]; [ValueError] when the
    range is empty. *)
Definition randint (a b : Z) : gen Z :=
  if b <? a then raise ValueError
  else r <- next_random ;; ret (a + r mod (b - a + 1)).

(** [random.choice(seq)]: some element; [IndexError] on an empty sequence. *)
Definition choice {A} (l : list A) : gen A :=
  match l with
  | [] => raise IndexError
  | x :: _ =>
      r <- next_random ;;
      ret (nth (Z.to_nat (r mod Z.of_nat (List.length l))) l x)
  end.

(** [random.choices(seq, weights=...)[0]] with positive weights: the weights
    shape the distribution only, every element can come out. *)
Definition choices {A} (l : list A) : gen A := choice l.

(** [random.random() < 0.2] *)
Definition random_below_02 : gen bool :=
  r <- next_random ;; ret (r mod 5 =? 0).

(** [round(random.uniform(10, 500), 2)], in hundredths. *)
Definition uniform_10_500 : gen Z :=
  r <- next_random ;; ret (1000 + r mod 49001).

(** [for x in l: ...], the body returning the records it appends. *)
Fixpoint for_each {A B} (l : list A) (body : A -> gen (list B)) : gen (list B) :=
  match l with
  | [] => ret []
  | x :: l' =>
      out <- body x ;;
      rest <- for_each l' body ;;
      ret (out ++ rest)
  end.

(** [range(n)] *)
Definition range (n : Z) : list Z := map Z.of_nat (seq 0 (Z.to_nat n)).

(** ** String formatting *)

Definition hex_digit (n : Z) : ascii :=
  nth (Z.to_nat n) (list_ascii_of_string "0123456789abcdef") "0"%char.

Fixpoint hex_digits (k : nat) (v : Z) (acc : string) : string :=
  match k with
  | O => acc
  | S k' => hex_digits k' (v / 16) (String (hex_digit (v mod 16)) acc)
  end.

(** [uuid.uuid4().hex[:8]]: the leading 32 bits of the identifier, all random. *)
Definition uuid4_hex8 : gen string :=
  e <- next_entropy ;; ret (hex_digits 8 (e mod 2 ^ 32) "").

Definition dec_digit (n : Z) : ascii :=
  nth (Z.to_nat n) (list_ascii_of_string "0123456789") "0"%char.

Fixpoint dec_digits (fuel : nat) (v : Z) (acc : string) : string :=
  match fuel with
  | O => acc
  | S fuel' =>
      let acc := String (dec_digit (v mod 10)) acc in
      if v / 10 =? 0 then acc else dec_digits fuel' (v / 10) acc
  end.

(** [f"{n}"] for a non-negative integer. *)
Definition str_int (n : Z) : string := dec_digits (S (Z.to_nat n)) n "".

Fixpoint zeros (k : nat) : string :=
  match k with O => "" | S k' => String "0" (zeros k') end.

(** [f"{n:0wd}"] for a non-negative integer. *)
Definition str_int_pad (w : nat) (n : Z) : string :=
  let s := str_int n in (zeros (w - String.length s) ++ s)%string.

Definition lower_ascii (c : ascii) : ascii :=
  let n := nat_of_ascii c in
  if (Nat.leb 65 n && Nat.leb n 90)%bool then ascii_of_nat (n + 32) else c.

(** [s.lower()] on ASCII text. *)
Fixpoint lower (s : string) : string :=
  match s with
  | EmptyString => EmptyString
  | String c s' => String (lower_ascii c) (lower s')
  end.

(** ** [scripts/generate_sample_data.py] *)

(** The module-level configuration constants. *)
Record config := mk_config {
  NUM_USERS : Z;
  NUM_DAYS : Z;
  EVENTS_PER_USER_PER_DAY : Z * Z   (* (min, max) *)
}.

Definition default_config : config := mk_config 1000 30 (1, 20).

Definition PRODUCTS : list string :=
  ["prod_001"; "prod_002"; "prod_003"; "prod_004"; "prod_005";
   "prod_006"; "prod_007"; "prod_008"; "prod_009"; "prod_010"]%string.
Definition CATEGORIES : list string :=
  ["electronics"; "clothing"; "books"; "home"; "sports"; "beauty"; "toys";
   "food"]%string.
Definition EVENT_TYPES : list string :=
  ["purchase"; "page_view"; "signup"; "login"; "logout"; "click"; "scroll";
   "search"]%string.
Definition PLATFORMS : list string := ["web"; "mobile"]%string.
Definition DEVICE_TYPES : list string := ["desktop"; "mobile"; "tablet"]%string.
Definition COUNTRIES : list string :=
  ["US"; "CA"; "UK"; "DE"; "FR"; "AU"; "JP"; "BR"]%string.
Definition SUBSCRIPTION_TIERS : list string :=
  ["basic"; "premium"; "enterprise"]%string.

Definition generate_user_id : gen string :=
  h <- uuid4_hex8 ;; ret ("user_" ++ h)%string.

Definition generate_event_id : gen string :=
  h <- uuid4_hex8 ;; ret ("evt_" ++ h)%string.

Definition generate_session_id : gen string :=
  h <- uuid4_hex8 ;; ret ("sess_" ++ h)%string.

Definition generate_email (first_name last_name : string) : gen string :=
  domain <- choice ["gmail.com"; "yahoo.com"; "hotmail.com"; "outlook.com";
                    "company.com"]%string ;;
  ret (lower first_name ++ "." ++ lower last_name ++ "@" ++ domain)%string.

Definition first_names : list string :=
  ["John"; "Jane"; "Bob"; "Alice"; "Charlie"; "Diana"; "Eve"; "Frank";
   "Grace"; "Henry"]%string.
Definition last_names : list string :=
  ["Smith"; "Johnson"; "Williams"; "Brown"; "Jones"; "Garcia"; "Miller";
   "Davis"; "Rodriguez"; "Martinez"]%string.

(** The body of [for i in range(NUM_USERS)]. *)
Definition generate_user : gen User.t :=
  first_name <- choice first_names ;;
  last_name <- choice last_names ;;
  t <- now ;;
  d <- randint 1 365 ;;
  let created_at := t - timedelta d 0 0 in
  user_id <- generate_user_id ;;
  email <- generate_email first_name last_name ;;
  du <- randint 0 30 ;;
  country <- choice COUNTRIES ;;
  timezone <- choice ["America/New_York"; "America/Los_Angeles";
                      "Europe/London"; "Europe/Berlin"; "Asia/Tokyo"]%string ;;
  subscription_tier <- choices SUBSCRIPTION_TIERS ;;
  source <- choice ["organic"; "google_ads"; "facebook_ads"; "referral";
                    "email"]%string ;;
  campaign <- choice ["summer_sale"; "winter_promo"; "new_user"; "retention";
                      "upsell"]%string ;;
  with_code <- random_below_02 ;;
  referral_code <-
    (if with_code : bool
     then n <- randint 1000 9999 ;; ret (JStr ("REF" ++ str_int n))
     else ret JNull) ;;
  ret (User.mk user_id email created_at (created_at + timedelta du 0 0)
         first_name last_name country timezone subscription_tier
         [("source", JStr source); ("campaign", JStr campaign);
          ("referral_code", referral_code)]%string).

Definition generate_user_data (cfg : config) : gen (list User.t) :=
  for_each (range (NUM_USERS cfg))
    (fun _ => user <- generate_user ;; ret [user]).

(** The [if]/[elif] chain building an event's metadata. *)
Definition event_metadata (event_type : string) : gen jdict :=
  if String.eqb event_type "purchase" then
    amount <- uniform_10_500 ;;
    currency <- choice ["USD"; "EUR"; "GBP"; "CAD"]%string ;;
    product_id <- choice PRODUCTS ;;
    category <- choice CATEGORIES ;;
    ret [("amount", JCents amount); ("currency", JStr currency);
         ("product_id", JStr product_id); ("category", JStr category)]%string
  else if String.eqb event_type "page_view" then
    page <- choice ["/home"; "/products"; "/checkout"; "/profile";
                    "/search"]%string ;;
    category <- choice CATEGORIES ;;
    ret [("page", JStr page); ("category", JStr category)]%string
  else if String.eqb event_type "signup" then
    source <- choice ["google_ads"; "facebook_ads"; "organic";
                      "referral"]%string ;;
    campaign <- choice ["summer_sale"; "winter_promo"; "new_user"]%string ;;
    ret [("source", JStr source); ("campaign", JStr campaign)]%string
  else if (String.eqb event_type "click" || String.eqb event_type "scroll")%bool
  then
    element <- choice ["button"; "link"; "image"; "text"]%string ;;
    page <- choice ["/home"; "/products"; "/checkout"; "/profile"]%string ;;
    ret [("element", JStr element); ("page", JStr page)]%string
  else if String.eqb event_type "search" then
    query <- choice ["laptop"; "shirt"; "book"; "phone"; "shoes"]%string ;;
    results_count <- randint 0 100 ;;
    ret [("query", JStr query); ("results_count", JInt results_count)]%string
  else ret [].

(** The body of [for event_num in range(num_events)]. *)
Definition generate_event (user_id session_id : string)
    (session_start : datetime) : gen Event.t :=
  m <- randint 0 120 ;;
  let event_time := session_start + timedelta 0 0 m in
  event_type <- choices EVENT_TYPES ;;
  metadata <- event_metadata event_type ;;
  event_id <- generate_event_id ;;
  device_type <- choice DEVICE_TYPES ;;
  platform <- choice PLATFORMS ;;
  v1 <- randint 1 3 ;;
  v2 <- randint 0 9 ;;
  v3 <- randint 0 9 ;;
  created_at <- now ;;
  ret (Event.mk event_id user_id event_type event_time session_id
         device_type platform
         (str_int v1 ++ "." ++ str_int v2 ++ "." ++ str_int v3)%string
         metadata created_at).

(** The body of [for day_offset in range(NUM_DAYS)]. *)
Definition generate_day (cfg : config) (start_date : datetime)
    (user_id : string) (user_created_at : datetime) (day_offset : Z)
  : gen (list Event.t) :=
  let event_date := start_date + timedelta day_offset 0 0 in
  if date event_date <? date user_created_at then ret []   (* continue *)
  else
    num_events <- randint (fst (EVENTS_PER_USER_PER_DAY cfg))
                          (snd (EVENTS_PER_USER_PER_DAY cfg)) ;;
    session_id <- generate_session_id ;;
    h <- randint 8 20 ;;
    m <- randint 0 59 ;;
    let session_start := event_date + timedelta 0 h m in
    for_each (range num_events)
      (fun _ =>
         event <- generate_event user_id session_id session_start ;;
         ret [event]).

Definition generate_event_data (cfg : config) (users : list User.t)
  : gen (list Event.t) :=
  t <- now ;;
  let start_date := t - timedelta (NUM_DAYS cfg) 0 0 in
  for_each users
    (fun user =>
       for_each (range (NUM_DAYS cfg))
         (generate_day cfg start_date (User.user_id user)
            (User.created_at user))).

(** [main], without the writing of the files. *)
Definition main (cfg : config)
  : gen (list User.t * list Event.t * list Session.t) :=
  users <- generate_user_data cfg ;;
  events <- generate_event_data cfg users ;;
  ret (users, events, generate_session_data events).

(** ** [simple_data_generator.py]

    [generate_sample_data] fixes [num_users = 100], [num_events = 1000] and
    [num_days = 30] as local constants; they are the section's variables. *)

Module Simple.
Section Generator.
Variables num_users num_events num_days : Z.

Definition countries : list string :=
  ["US"; "CA"; "UK"; "DE"; "FR"; "AU"; "JP"; "BR"]%string.
Definition subscription_tiers : list string :=
  ["basic"; "premium"; "enterprise"]%string.
Definition event_types : list string :=
  ["purchase"; "page_view"; "signup"; "login"; "logout"; "click"; "scroll";
   "search"]%string.
Definition platforms : list string := ["web"; "mobile"]%string.
Definition device_types : list string :=
  ["desktop"; "mobile"; "tablet"]%string.
Definition categories : list string :=
  ["electronics"; "clothing"; "books"; "home"; "sports"; "beauty"]%string.

(** The body of [for i in range(num_users)]. *)
Definition generate_user (i : Z) : gen User.t :=
  let user_id := ("user_" ++ str_int_pad 4 (i + 1))%string in
  let first_name := ("User" ++ str_int (i + 1))%string in
  let last_name := "Example"%string in
  let email := ("user" ++ str_int (i + 1) ++ "@example.com")%string in
  t1 <- now ;;
  d <- randint 1 365 ;;
  t2 <- now ;;
  du <- randint 0 30 ;;
  country <- choice countries ;;
  subscription_tier <- choice subscription_tiers ;;
  ret (User.mk user_id email (t1 - timedelta d 0 0) (t2 - timedelta du 0 0)
         first_name last_name country "America/New_York" subscription_tier
         [("source", JStr "sample_data"); ("campaign", JStr "demo")]%string).

Definition generate_users : gen (list User.t) :=
  for_each (range num_users)
    (fun i => user <- generate_user i ;; ret [user]).

(** The [if]/[elif] chain building an event's metadata. *)
Definition event_metadata (event_type : string) : gen jdict :=
  if String.eqb event_type "purchase" then
    amount <- uniform_10_500 ;;
    p <- randint 1 10 ;;
    category <- choice categories ;;
    ret [("amount", JCents amount); ("currency", JStr "USD");
         ("product_id", JStr ("prod_" ++ str_int_pad 3 p));
         ("category", JStr category)]%string
  else if String.eqb event_type "page_view" then
    page <- choice ["/home"; "/products"; "/checkout"; "/profile";
                    "/search"]%string ;;
    category <- choice categories ;;
    ret [("page", JStr page); ("category", JStr category)]%string
  else if String.eqb event_type "signup" then
    source <- choice ["google_ads"; "facebook_ads"; "organic";
                      "referral"]%string ;;
    campaign <- choice ["summer_sale"; "winter_promo"; "new_user"]%string ;;
    ret [("source", JStr source); ("campaign", JStr campaign)]%string
  else ret [].

(** The body of [for i in range(num_events)]. *)
Definition generate_event (user_ids : list string) (i : Z) : gen Event.t :=
  user_id <- choice user_ids ;;
  event_type <- choice event_types ;;
  t <- now ;;
  d <- randint 0 num_days ;;
  h <- randint 0 23 ;;
  m <- randint 0 59 ;;
  let event_time := t - timedelta d h m in
  metadata <- event_metadata event_type ;;
  s <- randint 1 50 ;;
  device_type <- choice device_types ;;
  platform <- choice platforms ;;
  created_at <- now ;;
  ret (Event.mk ("evt_" ++ str_int_pad 6 (i + 1))%string user_id event_type
         event_time ("sess_" ++ str_int_pad 3 s)%string device_type platform
         "1.0.0" metadata created_at).

Definition generate_events (users : list User.t) : gen (list Event.t) :=
  let user_ids := map User.user_id users in
  for_each (range num_events)
    (fun i => event <- generate_event user_ids i ;; ret [event]).

(** The whole function, without the writing of the files; its session loop
    is the text of [generate_session_data]. *)
Definition generate_sample_data
  : gen (list User.t * list Event.t * list Session.t) :=
  users <- generate_users ;;
  events <- generate_events users ;;
  ret (users, events, generate_session_data events).
End Generator.
End Simple.

(** ** Vocabulary of the properties *)

(** The events of a list that carry a given session identifier, in order. *)
Definition group (k : string) (events : list Event.t) : list Event.t :=
  filter (fun e => String.eqb (Event.session_id e) k) events.

Definition is_page_view (e : Event.t) : bool :=
  String.eqb (Event.event_type e) "page_view".

(** The record a non-empty group folds to, before the durations are set. *)
Definition summary (g : list Event.t) : option Session.t :=
  match g with
  | [] => None
  | e0 :: _ => Some (fold_left absorb_event g (new_session e0))
  end.

(** [m] is the greatest timestamp of the events of [g]. *)
Definition latest (g : list Event.t) (m : datetime) : Prop :=
  (forall e, In e g -> Event.event_timestamp e <= m) /\
  (exists e, In e g /\ Event.event_timestamp e = m).

(** [m] is the least timestamp of the events of [g]. *)
Definition earliest (g : list Event.t) (m : datetime) : Prop :=
  (forall e, In e g -> m <= Event.event_timestamp e) /\
  (exists e, In e g /\ Event.event_timestamp e = m).

Definition distinct_session_ids (events : list Event.t) : list string :=
  nodup string_dec (map Event.session_id events).


(** The schema table of the specification: the metadata keys of an event
    type, in the order they are written. *)
Definition metadata_keys (event_type : string) : list string :=
  if String.eqb event_type "purchase"
  then ["amount"; "currency"; "product_id"; "category"]%string
  else if String.eqb event_type "page_view" then ["page"; "category"]%string
  else if String.eqb event_type "signup" then ["source"; "campaign"]%string
  else if (String.eqb event_type "click" || String.eqb event_type "scroll")%bool
  then ["element"; "page"]%string
  else if String.eqb event_type "search"
  then ["query"; "results_count"]%string
  else [].

(** The table [simple_data_generator.py] implements: three event types carry
    metadata, every other one the empty map. *)
Definition simple_metadata_keys (event_type : string) : list string :=
  if String.eqb event_type "purchase"
  then ["amount"; "currency"; "product_id"; "category"]%string
  else if String.eqb event_type "page_view" then ["page"; "category"]%string
  else if String.eqb event_type "signup" then ["source"; "campaign"]%string
  else [].

(** At most [n * k] events, carrying at most [n] session identifiers. *)
Definition bounded (n : nat) (k : Z) (events : list Event.t) : Prop :=
  Z.of_nat (List.length events) <= Z.of_nat n * k /\
  exists ids, (List.length ids <= n)%nat /\
              incl (map Event.session_id events) ids.

(** A generator that cannot raise. *)
Definition succeeds {A} (m : gen A) : Prop :=
  forall w c, exists a c', m w c = Ok (a, c').

(** What the random draws settle of a user: every field but the identifier
    and the two timestamps, and the time from creation to update. *)
Definition same_drawn_fields (u u' : User.t) : Prop :=
  User.email u = User.email u' /\
  User.first_name u = User.first_name u' /\
  User.last_name u = User.last_name u' /\
  User.country u = User.country u' /\
  User.timezone u = User.timezone u' /\
  User.subscription_tier u = User.subscription_tier u' /\
  User.metadata u = User.metadata u' /\
  User.updated_at u - User.created_at u
    = User.updated_at u' - User.created_at u'.

(** Two generators that, run on the same random draws from the same position
    of the draws, under any clocks and entropies, return results related by
    [R] and have read the same number of draws. *)
Definition follows_draws {A} (R : A -> A -> Prop) (m m' : gen A) : Prop :=
  forall w w' c c' a c1 a' c1',
    (forall n, random_draw w n = random_draw w' n) ->
    random_pos c = random_pos c' ->
    m w c = Ok (a, c1) -> m' w' c' = Ok (a', c1') ->
    R a a' /\ random_pos c1 = random_pos c1'.

(** Day [day_offset] of a span that starts at [start_date] is generated for
    a user created at [created]: it is not before the day of creation. *)
Definition day_kept (start_date created : datetime) (day_offset : Z) : bool :=
  negb (date (start_date + timedelta day_offset 0 0) <? date created).

(** Some day of the span is generated for some user. *)
Definition some_day_kept (cfg : config) (start_date : datetime)
    (users : list User.t) : bool :=
  existsb (fun user =>
             existsb (day_kept start_date (User.created_at user))
                     (range (NUM_DAYS cfg)))
          users.

(** ** Sample inputs used by the examples *)

(** An event with the given user, session, type, time and device. *)
Definition sample_event (user_id session_id event_type : string)
    (minute : Z) (device_type : string) : Event.t :=
  Event.mk "evt_00000001" user_id event_type (timedelta 0 9 minute) session_id
           device_type "web" "1.0.0" [] (timedelta 0 9 minute).

(** A click of session [session_id] made at [t]. *)
Definition event_at (session_id : string) (t : datetime) : Event.t :=
  Event.mk "evt_00000002" "user_a" "click" t session_id
           "desktop" "web" "1.0.0" [] t.

(** A run that starts at 23:59:59 of day 19000, the clock one second later
    at each following reading; every raw random draw is 0 and the entropy
    differs from one identifier to the next. *)
Definition late_evening_world : world :=
  mk_world (fun _ => 0)
           (fun n => Z.of_N n * 2654435761)
           (fun n => 19000 * usec_per_day + 86399 * usec_per_second
                     + Z.of_N n * usec_per_second).

(** A user created at 23:00 of day 18999. *)
Definition evening_user : User.t :=
  User.mk "user_1a2b3c4d" "john.smith@gmail.com"
          (18999 * usec_per_day + 23 * usec_per_hour)
          (18999 * usec_per_day + 23 * usec_per_hour)
          "John" "Smith" "US" "America/New_York" "basic" [].

(** [n] users created on day 18000, an hour apart. *)
Definition sample_users (n : Z) : list User.t :=
  map (fun i => User.mk ("user_" ++ str_int_pad 4 (i + 1))%string
                        "user@example.com"
                        (18000 * usec_per_day + i * usec_per_hour)
                        (18000 * usec_per_day + i * usec_per_hour)
                        "User" "Example" "US" "America/New_York" "basic" [])
      (range n).

(** A run whose clock reads noon of day 19000 first and advances by one
    millisecond from one reading to the next; the raw random draws are 0 but
    for the listed positions; the entropy is as above. *)
Definition noon_world (draws : list (N * Z)) : world :=
  mk_world (fun n => match find (fun p => N.eqb (fst p) n) draws with
                     | Some p => snd p
                     | None => 0
                     end)
           (fun n => Z.of_N n * 2654435761)
           (fun n => 19000 * usec_per_day + 12 * usec_per_hour
                     + Z.of_N n * 1000).

(** ** Further vocabulary *)

(** The distinct elements of a list, each at its first occurrence. *)
Fixpoint first_occurrences (ids : list string) : list string :=
  match ids with
  | [] => []
  | k :: r => k :: filter (fun k' => negb (String.eqb k' k)) (first_occurrences r)
  end.

(** The sum of the event counts of a list of sessions. *)
Definition total_events_count (sessions : list Session.t) : Z :=
  fold_right (fun s n => Session.events_count s + n) 0 sessions.

Definition is_hex_digit (c : ascii) : bool :=
  existsb (Ascii.eqb c) (list_ascii_of_string "0123456789abcdef").

(** Eight lowercase hexadecimal digits. *)
Definition is_hex8 (s : string) : bool :=
  (Nat.eqb (String.length s) 8
   && forallb is_hex_digit (list_ascii_of_string s))%bool.

(** The events of one user on one day: one session identifier, one user, and
    timestamps within 120 minutes of a common session start. *)
Definition day_block (b : list Event.t) : Prop :=
  exists session_id user_id session_start,
    Forall (fun e =>
              Event.session_id e = session_id /\
              Event.user_id e = user_id /\
              session_start <= Event.event_timestamp e
                <= session_start + timedelta 0 0 120) b.

(** The fifty session identifiers [simple_data_generator.py] draws from. *)
Definition simple_session_ids : list string :=
  map (fun s => ("sess_" ++ str_int_pad 3 s)%string)
      (map Z.of_nat (seq 1 50)).

(** A generator that never moves the clock cursor backwards. *)
Definition advances {A} (m : gen A) : Prop :=
  forall w c a c', m w c = Ok (a, c') -> (clock_pos c <= clock_pos c')%N.

(** The clock readings at the positions below [k] do not go backwards and
    fall on one calendar day. *)
Definition steady_clock (w : world) (k : N) : Prop :=
  forall n m, (n <= m)%N -> (m < k)%N ->
              wall_clock w n <= wall_clock w m /\
              date (wall_clock w n) = date (wall_clock w m).

(** A run whose clock stands at noon of day 19000; the draws and the entropy
    are as in [noon_world []]. *)
Definition frozen_noon_world : world :=
  mk_world (fun _ => 0)
           (fun n => Z.of_N n * 2654435761)
           (fun _ => 19000 * usec_per_day + 12 * usec_per_hour).

(** No session identifier occurs in two different blocks. *)
Definition separate_sessions (blocks : list (list Event.t)) : Prop :=
  forall b1 b2 e1 e2,
    In b1 blocks -> In b2 blocks -> In e1 b1 -> In e2 b2 ->
    Event.session_id e1 = Event.session_id e2 -> b1 = b2.

(** What [generate_event_data] may store under a metadata key. *)
Definition metadata_value_ok (key : string) (v : jval) : Prop :=
  if String.eqb key "amount" then exists a, v = JCents a
  else if String.eqb key "currency"
  then exists s, v = JStr s /\ In s ["USD"; "EUR"; "GBP"; "CAD"]%string
  else if String.eqb key "product_id"
  then exists s, v = JStr s /\ In s PRODUCTS
  else if String.eqb key "category"
  then exists s, v = JStr s /\ In s CATEGORIES
  else if String.eqb key "page"
  then exists s, v = JStr s /\
                 In s ["/home"; "/products"; "/checkout"; "/profile";
                       "/search"]%string
  else if String.eqb key "source"
  then exists s, v = JStr s /\
                 In s ["google_ads"; "facebook_ads"; "organic";
                       "referral"]%string
  else if String.eqb key "campaign"
  then exists s, v = JStr s /\
                 In s ["summer_sale"; "winter_promo"; "new_user"]%string
  else if String.eqb key "element"
  then exists s, v = JStr s /\ In s ["button"; "link"; "image"; "text"]%string
  else if String.eqb key "query"
  then exists s, v = JStr s /\
                 In s ["laptop"; "shirt"; "book"; "phone"; "shoes"]%string
  else if String.eqb key "results_count"
  then exists n, v = JInt n /\ 0 <= n <= 100
  else False.

(** ** The float behind [total_seconds] *)

Lemma round_half_even_bounds (n d : Z) :
  0 <= n -> 0 < d ->
  n / d <= round_half_even n d <= n / d + 1 /\
  2 * d * round_half_even n d <= 2 * n + d.
Proof.
  intros Hn Hd. unfold round_half_even.
  pose proof (Z.div_mod n d ltac:(lia)) as E.
  pose proof (Z.mod_pos_bound n d Hd) as Hr.
  destruct (2 * (n mod d) <? d) eqn:H1.
  - apply Z.ltb_lt in H1. nia.
  - apply Z.ltb_ge in H1. destruct (d <? 2 * (n mod d)) eqn:H2.
    + apply Z.ltb_lt in H2. nia.
    + apply Z.ltb_ge in H2. destruct (Z.even (n / d)); nia.
Qed.

Lemma round_half_even_nonneg (n d : Z) :
  0 <= n -> 0 < d -> 0 <= round_half_even n d.
Proof.
  intros Hn Hd. pose proof (round_half_even_bounds n d Hn Hd) as [[H _] _].
  pose proof (Z.div_pos n d Hn Hd). lia.
Qed.

Lemma true_divide_int_nonneg (a b : Z) :
  0 <= a -> 0 < b -> 0 <= true_divide_int a b.
Proof.
  intros Ha Hb. unfold true_divide_int.
  destruct (a <? b); [lia|].
  cbv zeta. destruct (Z.log2 (a / b) - 52 <? 0) eqn:He.
  - apply Z.ltb_lt in He. apply Z.div_pos.
    + apply round_half_even_nonneg; [|exact Hb].
      apply Z.mul_nonneg_nonneg; [exact Ha|]. apply Z.pow_nonneg. lia.
    + apply Z.pow_pos_nonneg; lia.
  - apply Z.ltb_ge in He. apply Z.mul_nonneg_nonneg.
    + apply round_half_even_nonneg; [exact Ha|].
      apply Z.mul_pos_pos; [exact Hb|]. apply Z.pow_pos_nonneg; lia.
    + apply Z.pow_nonneg. lia.
Qed.

Lemma total_seconds_int_nonneg (td : Z) : 0 <= td -> 0 <= total_seconds_int td.
Proof.
  intros H. unfold total_seconds_int.
  apply Z.mul_nonneg_nonneg.
  - apply Z.sgn_nonneg. exact H.
  - apply true_divide_int_nonneg; [apply Z.abs_nonneg | reflexivity].
Qed.

(** Below 2^52 seconds the float is the exact quotient rounded at a binary
    digit after the point: truncating it gives the whole seconds or one
    more. *)
Lemma true_divide_int_near (a b : Z) :
  0 <= a -> 0 < b -> a / b < 2 ^ 52 ->
  a / b <= true_divide_int a b <= a / b + 1.
Proof.
  intros Ha Hb Hq. unfold true_divide_int.
  destruct (a <? b) eqn:Hab.
  - apply Z.ltb_lt in Hab. rewrite Z.div_small by lia. lia.
  - apply Z.ltb_ge in Hab. cbv zeta.
    assert (Hq1 : 1 <= a / b) by (apply Z.div_le_lower_bound; lia).
    assert (Hl : Z.log2 (a / b) < 52) by (apply Z.log2_lt_pow2; lia).
    destruct (Z.log2 (a / b) - 52 <? 0) eqn:He; [|apply Z.ltb_ge in He; lia].
    set (P := 2 ^ (- (Z.log2 (a / b) - 52))).
    assert (HP : 0 < P) by (apply Z.pow_pos_nonneg; lia).
    pose proof (round_half_even_bounds (a * P) b ltac:(nia) Hb) as [[Hlo Hhi] _].
    pose proof (Z.mul_div_le a b Hb) as Hm.
    pose proof (Z.mul_succ_div_gt a b Hb) as Hs.
    assert (H1 : a / b * P <= a * P / b) by (apply Z.div_le_lower_bound; nia).
    assert (H2 : a * P / b < (a / b + 1) * P) by (apply Z.div_lt_upper_bound; nia).
    split.
    + apply Z.div_le_lower_bound; nia.
    + apply Z.div_le_upper_bound; nia.
Qed.

(** Below 2^34 seconds the float is within half a microsecond of the exact
    quotient, and truncating it gives the whole seconds. *)
Lemma true_divide_int_exact (a : Z) :
  0 <= a < 2 ^ 34 * usec_per_second ->
  true_divide_int a usec_per_second = a / usec_per_second.
Proof.
  intros [Ha Hlt]. unfold true_divide_int.
  assert (Hb : 0 < usec_per_second) by reflexivity.
  destruct (a <? usec_per_second) eqn:Hab.
  - apply Z.ltb_lt in Hab. rewrite Z.div_small by lia. reflexivity.
  - apply Z.ltb_ge in Hab. cbv zeta.
    assert (Hq1 : 1 <= a / usec_per_second) by (apply Z.div_le_lower_bound; lia).
    assert (Hq : a / usec_per_second < 2 ^ 34)
      by (apply Z.div_lt_upper_bound; lia).
    assert (Hl : Z.log2 (a / usec_per_second) < 34) by (apply Z.log2_lt_pow2; lia).
    destruct (Z.log2 (a / usec_per_second) - 52 <? 0) eqn:He;
      [|apply Z.ltb_ge in He; lia].
    set (k := - (Z.log2 (a / usec_per_second) - 52)).
    assert (Hk : 19 <= k) by (unfold k; lia).
    assert (HP : 2 ^ 19 <= 2 ^ k) by (apply Z.pow_le_mono_r; lia).
    set (P := 2 ^ k) in *.
    pose proof (round_half_even_bounds (a * P) usec_per_second ltac:(nia) Hb)
      as [[Hlo _] Hhi].
    pose proof (Z.div_mod a usec_per_second ltac:(lia)) as E.
    pose proof (Z.mod_pos_bound a usec_per_second Hb) as Hr.
    set (q := a / usec_per_second) in *.
    set (r := a mod usec_per_second) in *.
    assert (H1 : q * P <= a * P / usec_per_second)
      by (apply Z.div_le_lower_bound; nia).
    symmetry. apply Z.div_unique with
      (r := round_half_even (a * P) usec_per_second - q * P).
    + left. split; [lia|].
      change (2 ^ 19) with 524288 in HP.
      unfold usec_per_second in *. nia.
    + lia.
Qed.

Lemma total_seconds_int_exact (td : Z) :
  0 <= td < 2 ^ 34 * usec_per_second ->
  total_seconds_int td = td / usec_per_second.
Proof.
  intros H. unfold total_seconds_int.
  rewrite Z.abs_eq by lia. rewrite true_divide_int_exact by exact H.
  destruct (Z.eq_dec td 0) as [->|Hne]; [reflexivity|].
  rewrite Z.sgn_pos by lia. lia.
Qed.

Lemma total_seconds_int_near (td : Z) :
  0 <= td -> td / usec_per_second < 2 ^ 52 ->
  td / usec_per_second <= total_seconds_int td <= td / usec_per_second + 1.
Proof.
  intros H Hq. unfold total_seconds_int.
  rewrite Z.abs_eq by lia.
  pose proof (true_divide_int_near td usec_per_second H eq_refl Hq) as Hn.
  destruct (Z.eq_dec td 0) as [->|Hne]; [vm_compute; split; discriminate|].
  rewrite Z.sgn_pos by lia. lia.
Qed.


(** * Properties *)

(** ** Dictionaries *)

Section DictFacts.
Context {V : Type}.
Implicit Types (d : dict V) (k : string) (v : V).

Lemma dict_get_set_same d k v : dict_get (dict_set d k v) k = Some v.
Proof.
  induction d as [|[k' v'] d IH]; simpl.
  - now rewrite String.eqb_refl.
  - destruct (String.eqb k' k) eqn:E; simpl; rewrite E; auto.
Qed.

Lemma dict_get_set_other d k k' v :
  k <> k' -> dict_get (dict_set d k v) k' = dict_get d k'.
Proof.
  intros Hne. induction d as [|[k0 v0] d IH]; simpl.
  - destruct (String.eqb_spec k k'); congruence.
  - destruct (String.eqb_spec k0 k) as [->|Hk0]; simpl.
    + destruct (String.eqb_spec k k'); congruence.
    + now rewrite IH.
Qed.

Lemma dict_get_In d k v : dict_get d k = Some v -> In (k, v) d.
Proof.
  induction d as [|[k0 v0] d IH]; simpl; [discriminate|].
  destruct (String.eqb_spec k0 k) as [->|Hk0].
  - intros [= ->]. now left.
  - intros H. right. auto.
Qed.

Lemma dict_In_get d k v :
  NoDup (dict_keys d) -> In (k, v) d -> dict_get d k = Some v.
Proof.
  induction d as [|[k0 v0] d IH]; simpl; [tauto|].
  intros Hnd [H|H].
  - inversion H; subst. now rewrite String.eqb_refl.
  - inversion Hnd as [|? ? Hnotin Hnd']; subst.
    destruct (String.eqb_spec k0 k) as [->|Hk0]; auto.
    exfalso. apply Hnotin. unfold dict_keys.
    change k with (fst (k, v)). now apply in_map.
Qed.

Lemma dict_keys_set d k v :
  dict_keys (dict_set d k v) =
  if dict_mem k d then dict_keys d else dict_keys d ++ [k].
Proof.
  unfold dict_mem. induction d as [|[k0 v0] d IH]; simpl; auto.
  destruct (String.eqb_spec k0 k) as [->|Hk0]; simpl; auto.
  rewrite IH. now destruct (dict_get d k).
Qed.

Lemma dict_mem_keys d k : dict_mem k d = true <-> In k (dict_keys d).
Proof.
  unfold dict_mem. induction d as [|[k0 v0] d IH]; simpl.
  - split; [discriminate|tauto].
  - destruct (String.eqb_spec k0 k) as [->|Hk0].
    + split; auto.
    + rewrite IH. split; [auto|]. intros [H|H]; [congruence|auto].
Qed.

Lemma dict_set_NoDup d k v :
  NoDup (dict_keys d) -> NoDup (dict_keys (dict_set d k v)).
Proof.
  intros Hnd. rewrite dict_keys_set.
  destruct (dict_mem k d) eqn:E; auto.
  apply NoDup_app; auto.
  - repeat constructor. simpl. tauto.
  - intros x Hx [<-|[]]. apply dict_mem_keys in Hx. congruence.
Qed.
End DictFacts.

(** ** The session fold, key by key *)

Lemma fold_event_get (d : sessions_t) (e : Event.t) (k : string) :
  dict_get (fold_event d e) k =
  if String.eqb (Event.session_id e) k
  then Some (absorb_event
               (match dict_get d k with Some s => s | None => new_session e end)
               e)
  else dict_get d k.
Proof.
  unfold fold_event, dict_mem.
  destruct (String.eqb_spec (Event.session_id e) k) as [<-|Hne].
  - destruct (dict_get d (Event.session_id e)) as [s|] eqn:E.
    + rewrite E. apply dict_get_set_same.
    + rewrite dict_get_set_same. apply dict_get_set_same.
  - destruct (dict_get d (Event.session_id e)) as [s|] eqn:E.
    + rewrite E. now apply dict_get_set_other.
    + rewrite dict_get_set_same.
      rewrite !dict_get_set_other by assumption. reflexivity.
Qed.

Lemma fold_event_NoDup (d : sessions_t) (e : Event.t) :
  NoDup (dict_keys d) -> NoDup (dict_keys (fold_event d e)).
Proof.
  intros Hnd. unfold fold_event.
  destruct (dict_mem (Event.session_id e) d);
    destruct (dict_get _ _); auto using dict_set_NoDup.
Qed.

Lemma session_store_NoDup (events : list Event.t) :
  NoDup (dict_keys (session_store events)).
Proof.
  unfold session_store.
  assert (G : forall d : sessions_t, NoDup (dict_keys d) ->
                NoDup (dict_keys (fold_left fold_event events d))).
  { induction events as [|e l IH]; simpl; auto using fold_event_NoDup. }
  apply G. constructor.
Qed.

Lemma summary_snoc (g : list Event.t) (e : Event.t) :
  summary (g ++ [e]) =
  Some (absorb_event
          (match summary g with Some s => s | None => new_session e end) e).
Proof.
  destruct g as [|e0 r]; simpl; [reflexivity|].
  now rewrite fold_left_app.
Qed.

(** The store holds, under each key, the summary of that key's group. *)
Lemma session_store_get (events : list Event.t) (k : string) :
  dict_get (session_store events) k = summary (group k events).
Proof.
  unfold session_store.
  induction events as [|e l IH] using rev_ind; [reflexivity|].
  rewrite fold_left_app. simpl. rewrite fold_event_get, IH.
  unfold group. rewrite filter_app. simpl.
  destruct (String.eqb (Event.session_id e) k).
  - now rewrite summary_snoc.
  - now rewrite app_nil_r.
Qed.

Lemma In_generate_session_data (events : list Event.t) (s : Session.t) :
  In s (generate_session_data events) <->
  exists k s0, summary (group k events) = Some s0 /\ s = set_duration s0.
Proof.
  unfold generate_session_data, dict_values. rewrite map_map, in_map_iff.
  split.
  - intros [[k s0] [Hs Hin]]. exists k, s0. split; [|now symmetry].
    rewrite <- session_store_get.
    apply dict_In_get; auto using session_store_NoDup.
  - intros (k & s0 & Hsum & ->). exists (k, s0). split; [reflexivity|].
    apply dict_get_In. now rewrite session_store_get.
Qed.

(** ** What a group folds to *)

Lemma absorb_event_fixed (s : Session.t) (e : Event.t) :
  Session.session_id (absorb_event s e) = Session.session_id s /\
  Session.user_id (absorb_event s e) = Session.user_id s /\
  Session.started_at (absorb_event s e) = Session.started_at s /\
  Session.device_type (absorb_event s e) = Session.device_type s /\
  Session.platform (absorb_event s e) = Session.platform s /\
  Session.duration_seconds (absorb_event s e) = Session.duration_seconds s.
Proof.
  unfold absorb_event.
  destruct (String.eqb (Event.event_type e) "page_view"); simpl;
    destruct (Session.ended_at s) as [m|]; simpl;
    try destruct (Event.event_timestamp e >? m); simpl; auto 10.
Qed.

Lemma absorb_event_counts (s : Session.t) (e : Event.t) :
  Session.events_count (absorb_event s e) = Session.events_count s + 1 /\
  Session.page_views (absorb_event s e) =
    Session.page_views s + (if is_page_view e then 1 else 0).
Proof.
  unfold absorb_event, is_page_view.
  destruct (String.eqb (Event.event_type e) "page_view"); simpl;
    destruct (Session.ended_at s) as [m|]; simpl;
    try destruct (Event.event_timestamp e >? m); simpl; auto with zarith.
Qed.

Lemma absorb_event_ended (s : Session.t) (e : Event.t) :
  Session.ended_at (absorb_event s e) =
  Some (match Session.ended_at s with
        | None => Event.event_timestamp e
        | Some m => Z.max m (Event.event_timestamp e)
        end).
Proof.
  unfold absorb_event.
  destruct (String.eqb (Event.event_type e) "page_view"); simpl;
    destruct (Session.ended_at s) as [m|] eqn:E; simpl; auto;
    destruct (Z.gtb_spec (Event.event_timestamp e) m); simpl;
    rewrite ?E; f_equal; lia.
Qed.

Lemma fold_absorb_fixed (g : list Event.t) (s : Session.t) :
  let s' := fold_left absorb_event g s in
  Session.session_id s' = Session.session_id s /\
  Session.user_id s' = Session.user_id s /\
  Session.started_at s' = Session.started_at s /\
  Session.device_type s' = Session.device_type s /\
  Session.platform s' = Session.platform s /\
  Session.duration_seconds s' = Session.duration_seconds s.
Proof.
  revert s. induction g as [|e g IH]; intros s; simpl; auto 10.
  destruct (IH (absorb_event s e)) as (A & B & C & D & E & F).
  destruct (absorb_event_fixed s e) as (A' & B' & C' & D' & E' & F').
  simpl in *. repeat split; congruence.
Qed.

Lemma fold_absorb_counts (g : list Event.t) (s : Session.t) :
  let s' := fold_left absorb_event g s in
  Session.events_count s' = Session.events_count s + Z.of_nat (List.length g) /\
  Session.page_views s' =
    Session.page_views s + Z.of_nat (List.length (filter is_page_view g)).
Proof.
  revert s. induction g as [|e g IH]; intros s.
  - simpl. lia.
  - cbn [fold_left]. destruct (IH (absorb_event s e)) as [A B].
    destruct (absorb_event_counts s e) as [A' B'].
    cbn zeta in *. rewrite A, B, A', B'. cbn [filter List.length].
    destruct (is_page_view e); cbn [List.length]; lia.
Qed.

(** The running maximum: once set, [ended_at] is where the greatest
    timestamp met so far is kept. *)
Lemma fold_absorb_ended (g : list Event.t) (s : Session.t) (m : datetime) :
  Session.ended_at s = Some m ->
  exists m', Session.ended_at (fold_left absorb_event g s) = Some m' /\
             m <= m' /\
             (forall e, In e g -> Event.event_timestamp e <= m') /\
             (m' = m \/ exists e, In e g /\ Event.event_timestamp e = m').
Proof.
  revert s m. induction g as [|e g IH]; intros s m Hs; simpl.
  - exists m. split; [assumption|]. split; [lia|]. split; [tauto|auto].
  - pose proof (absorb_event_ended s e) as Ha. rewrite Hs in Ha.
    destruct (IH _ _ Ha) as (m' & Hm' & Hle & Hub & Hatt).
    exists m'. repeat split; auto; try lia.
    + intros e' [<-|Hin]; [lia|auto].
    + destruct Hatt as [->|(e' & Hin & He')]; [|eauto].
      destruct (Z.max_spec m (Event.event_timestamp e)) as [[_ ->]|[_ ->]];
        eauto.
Qed.

Lemma summary_ended (g : list Event.t) (s : Session.t) :
  summary g = Some s -> exists m, Session.ended_at s = Some m /\ latest g m.
Proof.
  destruct g as [|e0 r]; [discriminate|]. intros [= <-]. cbn [fold_left].
  pose proof (absorb_event_ended (new_session e0) e0) as Ha. simpl in Ha.
  destruct (fold_absorb_ended r _ _ Ha) as (m' & Hm' & Hle & Hub & Hatt).
  exists m'. split; [assumption|]. split.
  - intros e [<-|Hin]; auto.
  - destruct Hatt as [->|(e & Hin & He)].
    + exists e0. simpl. auto.
    + exists e. simpl. auto.
Qed.

Lemma summary_first (e0 : Event.t) (r : list Event.t) (s : Session.t) :
  summary (e0 :: r) = Some s ->
  Session.session_id s = Event.session_id e0 /\
  Session.user_id s = Event.user_id e0 /\
  Session.started_at s = Event.event_timestamp e0 /\
  Session.device_type s = Event.device_type e0 /\
  Session.platform s = Event.platform e0 /\
  Session.duration_seconds s = None.
Proof.
  intros [= <-]. exact (fold_absorb_fixed (e0 :: r) (new_session e0)).
Qed.

Lemma summary_counts (g : list Event.t) (s : Session.t) :
  summary g = Some s ->
  Session.events_count s = Z.of_nat (List.length g) /\
  Session.page_views s = Z.of_nat (List.length (filter is_page_view g)).
Proof.
  destruct g as [|e0 r]; [discriminate|]. intros [= <-].
  destruct (fold_absorb_counts (e0 :: r) (new_session e0)) as [A B].
  cbn zeta in A, B.
  split; (etransitivity; [first [exact A | exact B]|]);
    unfold new_session; cbn [Session.events_count Session.page_views]; lia.
Qed.

Lemma latest_unique (g : list Event.t) (m m' : datetime) :
  latest g m -> latest g m' -> m = m'.
Proof.
  intros [U (e & He & <-)] [U' (e' & He' & <-)].
  specialize (U _ He'). specialize (U' _ He). lia.
Qed.

Lemma group_In (k : string) (events : list Event.t) (e : Event.t) :
  In e (group k events) <-> In e events /\ Event.session_id e = k.
Proof.
  unfold group. rewrite filter_In. now rewrite String.eqb_eq.
Qed.

(** ** Claims on session derivation *)

Lemma Permutation_group (k : string) (l l' : list Event.t) :
  Permutation l l' -> Permutation (group k l) (group k l').
Proof.
  unfold group. induction 1; simpl.
  - constructor.
  - destruct (String.eqb _ _); auto.
  - repeat destruct (String.eqb _ _); auto using perm_swap.
  - eauto using Permutation_trans.
Qed.

Lemma Permutation_page_views (l l' : list Event.t) :
  Permutation l l' ->
  List.length (filter is_page_view l) = List.length (filter is_page_view l').
Proof.
  induction 1; simpl; repeat destruct (is_page_view _); simpl; congruence.
Qed.

Lemma latest_Permutation (g g' : list Event.t) (m : datetime) :
  Permutation g g' -> latest g m -> latest g' m.
Proof.
  intros P [U (e & He & Hm)]. split.
  - intros e' He'. apply U. eapply Permutation_in; [|exact He'].
    now apply Permutation_sym.
  - exists e. split; [eapply Permutation_in; eauto|assumption].
Qed.

Lemma set_duration_fixed (s : Session.t) :
  Session.session_id (set_duration s) = Session.session_id s /\
  Session.user_id (set_duration s) = Session.user_id s /\
  Session.started_at (set_duration s) = Session.started_at s /\
  Session.ended_at (set_duration s) = Session.ended_at s /\
  Session.events_count (set_duration s) = Session.events_count s /\
  Session.page_views (set_duration s) = Session.page_views s /\
  Session.device_type (set_duration s) = Session.device_type s /\
  Session.platform (set_duration s) = Session.platform s.
Proof.
  unfold set_duration. destruct (Session.ended_at s) eqn:E; simpl; auto 10.
Qed.

Lemma summary_key (k : string) (events : list Event.t) (s : Session.t) :
  summary (group k events) = Some s -> Session.session_id s = k.
Proof.
  destruct (group k events) as [|e0 r] eqn:G; [discriminate|]. intros H.
  apply summary_first in H. destruct H as [-> _].
  assert (In e0 (group k events)) as Hin by (rewrite G; now left).
  now apply group_In in Hin.
Qed.

(** Every derived record comes from the group of its own identifier. *)
Lemma session_of_group (events : list Event.t) (s : Session.t) :
  In s (generate_session_data events) ->
  exists s0 e0 r,
    group (Session.session_id s) events = e0 :: r /\
    summary (e0 :: r) = Some s0 /\ s = set_duration s0.
Proof.
  intros H. apply In_generate_session_data in H.
  destruct H as (k & s0 & Hsum & ->).
  destruct (set_duration_fixed s0) as [-> _].
  rewrite (summary_key _ _ _ Hsum).
  destruct (group k events) as [|e0 r] eqn:G; [discriminate|].
  now exists s0, e0, r.
Qed.

(** The end of a session is the latest timestamp of its events. *)
Lemma session_ended_at_latest (events : list Event.t) (s : Session.t) :
  In s (generate_session_data events) ->
  exists m, Session.ended_at s = Some m /\
            latest (group (Session.session_id s) events) m.
Proof.
  intros H. destruct (session_of_group _ _ H) as (s0 & e0 & r & G & Hsum & ->).
  destruct (summary_ended _ _ Hsum) as (m & Hm & L).
  exists m. destruct (set_duration_fixed s0) as (Hid & _ & _ & -> & _).
  rewrite Hid in G |- *. now rewrite G.
Qed.

(** The start of a session is the timestamp of the first event met. *)
Lemma session_started_at_first (events : list Event.t) (s : Session.t) :
  In s (generate_session_data events) ->
  exists e0 r, group (Session.session_id s) events = e0 :: r /\
               Session.started_at s = Event.event_timestamp e0.
Proof.
  intros H. destruct (session_of_group _ _ H) as (s0 & e0 & r & G & Hsum & ->).
  exists e0, r. split; [assumption|].
  destruct (set_duration_fixed s0) as (_ & _ & -> & _).
  now apply summary_first in Hsum.
Qed.

(** C3 (code at the failing input): two events of one session arriving
    latest first.  [started_at] is the timestamp of the first event met, 09:10,
    although the session has an event at 09:05; [ended_at] is the latest
    timestamp as the claim says. *)
Theorem started_at_is_first_seen_not_earliest :
  let events := [sample_event "user_a" "sess_1" "click" 10 "desktop";
                 sample_event "user_a" "sess_1" "click" 5 "desktop"] in
  exists s, generate_session_data events = [s] /\
            Session.started_at s = timedelta 0 9 10 /\
            Session.ended_at s = Some (timedelta 0 9 10) /\
            earliest (group (Session.session_id s) events) (timedelta 0 9 5) /\
            ~ earliest (group (Session.session_id s) events)
                (Session.started_at s).
Proof.
  cbv zeta. eexists. split; [reflexivity|]. simpl.
  split; [reflexivity|]. split; [reflexivity|]. split.
  - split.
    + intros e [<-|[<-|[]]]; vm_compute; discriminate.
    + eexists. split; [right; left; reflexivity|reflexivity].
  - intros [L _]. specialize (L _ (or_intror (or_introl eq_refl))).
    vm_compute in L. now apply L.
Qed.

(** A derived record is a summary whose end is set, no earlier than its
    start, with the duration filled in from the two. *)
Lemma session_span (events : list Event.t) (s : Session.t) :
  In s (generate_session_data events) ->
  exists ended,
    Session.ended_at s = Some ended /\
    Session.started_at s <= ended /\
    Session.duration_seconds s
      = Some (total_seconds_int (ended - Session.started_at s)).
Proof.
  intros H. destruct (session_of_group _ _ H) as (s0 & e0 & r & G & Hsum & ->).
  destruct (summary_ended _ _ Hsum) as (m & Hm & [U _]).
  pose proof (summary_first _ _ _ Hsum) as (_ & _ & Hst & _).
  exists m. unfold set_duration. rewrite Hm. simpl. rewrite Hm.
  repeat split. rewrite Hst. apply U. now left.
Qed.

(** C4 (the claim fails as stated): a session whose two events lie
    19999999999.999999 seconds apart, the first in the year 1336 and the
    second in the last microsecond of 1969.  The float nearest to that
    number of seconds is 20000000000.0, so the recorded duration is one
    second more than the whole seconds of the span. *)
Lemma session_duration_above_whole_seconds :
  ~ (forall (events : list Event.t) (s : Session.t),
       Forall (fun e => representable (Event.event_timestamp e)) events ->
       In s (generate_session_data events) ->
       exists ended d,
         Session.ended_at s = Some ended /\
         Session.started_at s <= ended /\
         Session.duration_seconds s = Some d /\
         d = (ended - Session.started_at s) / usec_per_second).
Proof.
  intros H.
  pose (e1 := event_at "sess_1" (- 20000000000 * usec_per_second)).
  pose (e2 := event_at "sess_1" (- 1)).
  assert (Hr : Forall (fun e => representable (Event.event_timestamp e))
                      [e1; e2]).
  { repeat constructor; vm_compute; discriminate. }
  destruct (H [e1; e2]
              (set_duration (fold_left absorb_event [e1; e2] (new_session e1)))
              Hr (or_introl eq_refl))
    as (ended & d & He & _ & Hd & Hq).
  vm_compute in He. injection He as <-.
  vm_compute in Hd. injection Hd as <-.
  vm_compute in Hq. discriminate.
Qed.

(** C4 (amended): every derived session ends no earlier than it starts and
    has its duration set.  The duration is the whole seconds of the span
    from start to end whenever the span is below 2^34 seconds (some 544
    years); between any two datetimes it is the whole seconds or one more. *)
Theorem session_duration_is_span (events : list Event.t) (s : Session.t) :
  In s (generate_session_data events) ->
  exists ended d,
    Session.ended_at s = Some ended /\
    Session.started_at s <= ended /\
    Session.duration_seconds s = Some d /\
    (ended - Session.started_at s < 2 ^ 34 * usec_per_second ->
     d = (ended - Session.started_at s) / usec_per_second) /\
    (representable (Session.started_at s) -> representable ended ->
     (ended - Session.started_at s) / usec_per_second <= d
       <= (ended - Session.started_at s) / usec_per_second + 1).
Proof.
  intros H. destruct (session_span _ _ H) as (m & Hm & Hle & Hd).
  exists m, (total_seconds_int (m - Session.started_at s)).
  split; [exact Hm|]. split; [exact Hle|]. split; [exact Hd|]. split.
  - intros Hlt. apply total_seconds_int_exact. lia.
  - intros [Hlo _] [_ Hhi].
    apply total_seconds_int_near; [lia|].
    apply Z.div_lt_upper_bound; [reflexivity|].
    unfold datetime_min, datetime_max in *.
    change (2 ^ 52) with 4503599627370496. unfold usec_per_second in *. lia.
Qed.

(** A session of three events: a page view at 09:10, a click at 09:40 and a
    search at 09:25.  It lasts from 09:10 to 09:40, 1800 seconds. *)
Lemma session_duration_is_span_witness :
  let events := [sample_event "user_a" "sess_1" "page_view" 10 "desktop";
                 sample_event "user_a" "sess_1" "click" 40 "desktop";
                 sample_event "user_a" "sess_1" "search" 25 "desktop"] in
  exists s,
    generate_session_data events = [s] /\
    Session.started_at s = timedelta 0 9 10 /\
    Session.duration_seconds s = Some 1800 /\
    exists ended d,
      Session.ended_at s = Some ended /\
      Session.started_at s <= ended /\
      Session.duration_seconds s = Some d /\
      (ended - Session.started_at s < 2 ^ 34 * usec_per_second ->
       d = (ended - Session.started_at s) / usec_per_second) /\
      (representable (Session.started_at s) -> representable ended ->
       (ended - Session.started_at s) / usec_per_second <= d
         <= (ended - Session.started_at s) / usec_per_second + 1).
Proof.
  cbv zeta. eexists. split; [vm_compute; reflexivity|].
  split; [reflexivity|]. split; [reflexivity|].
  apply (session_duration_is_span
           [sample_event "user_a" "sess_1" "page_view" 10 "desktop";
            sample_event "user_a" "sess_1" "click" 40 "desktop";
            sample_event "user_a" "sess_1" "search" 25 "desktop"]).
  left. vm_compute. reflexivity.
Defined.

(** C2 (the claim fails as stated): two events of one session at the same
    minute, on different devices.  Swapping them changes the derived record,
    which copies the device of the first event met. *)
Lemma session_derivation_depends_on_order :
  ~ (forall events events' : list Event.t,
       Permutation events events' ->
       forall s, In s (generate_session_data events) <->
                 In s (generate_session_data events')).
Proof.
  intros H.
  pose (e1 := sample_event "user_a" "sess_1" "click" 10 "desktop").
  pose (e2 := sample_event "user_a" "sess_1" "click" 10 "tablet").
  specialize (H [e1; e2] [e2; e1] (perm_swap e2 e1 [])).
  destruct (H (set_duration (fold_left absorb_event [e1; e2] (new_session e1))))
    as [Hin _].
  specialize (Hin (or_introl eq_refl)).
  destruct Hin as [Heq|[]]. vm_compute in Heq. discriminate.
Qed.

(** C2 (amended): whatever the order of the events, the same session
    identifiers are derived, each with the same event count, page-view count
    and end; the user, the device and the platform of a record are those of
    the first event met with its identifier. *)
Theorem session_derivation_permutation
    (events events' : list Event.t) (s : Session.t) :
  Permutation events events' ->
  In s (generate_session_data events) ->
  (exists s', In s' (generate_session_data events') /\
              Session.session_id s' = Session.session_id s /\
              Session.events_count s' = Session.events_count s /\
              Session.page_views s' = Session.page_views s /\
              Session.ended_at s' = Session.ended_at s) /\
  (exists e0 r, group (Session.session_id s) events = e0 :: r /\
                Session.user_id s = Event.user_id e0 /\
                Session.device_type s = Event.device_type e0 /\
                Session.platform s = Event.platform e0).
Proof.
  intros P H.
  destruct (session_of_group _ _ H) as (s0 & e0 & r & G & Hsum & ->).
  destruct (set_duration_fixed s0)
    as (Hid & Hu & _ & Hen & Hcnt & Hpv & Hdev & Hpl).
  rewrite Hid in G.
  set (k := Session.session_id s0) in *.
  pose proof (Permutation_group k _ _ P) as PG. rewrite G in PG.
  split.
  - destruct (group k events') as [|e0' r'] eqn:G'.
    { apply Permutation_sym, Permutation_nil in PG. discriminate. }
    destruct (summary (e0' :: r')) as [s0'|] eqn:Hsum'; [|discriminate].
    exists (set_duration s0'). split.
    { apply In_generate_session_data. exists k, s0'. now rewrite G'. }
    destruct (set_duration_fixed s0')
      as (-> & _ & _ & -> & -> & -> & _).
    rewrite Hid, Hen, Hcnt, Hpv.
    destruct (summary_counts _ _ Hsum) as [-> ->].
    destruct (summary_counts _ _ Hsum') as [-> ->].
    destruct (summary_ended _ _ Hsum) as (m & -> & L).
    destruct (summary_ended _ _ Hsum') as (m' & -> & L').
    repeat split.
    + apply summary_first in Hsum'. destruct Hsum' as [-> _].
      assert (In e0' (group k events')) as Hin by (rewrite G'; now left).
      apply group_In in Hin. subst k. apply Hin.
    + f_equal. symmetry. now apply Permutation_length.
    + f_equal. symmetry. now apply Permutation_page_views.
    + f_equal. apply (latest_unique (e0' :: r')); auto.
      now apply (latest_Permutation (e0 :: r)).
  - exists e0, r. rewrite Hid, Hu, Hdev, Hpl. split; [assumption|].
    apply summary_first in Hsum. tauto.
Qed.

(** A click and a page view of one session, in both orders. *)
Lemma session_derivation_permutation_witness :
  let e1 := sample_event "user_a" "sess_1" "click" 10 "desktop" in
  let e2 := sample_event "user_a" "sess_1" "page_view" 5 "tablet" in
  let s := set_duration (fold_left absorb_event [e1; e2] (new_session e1)) in
  (exists s', In s' (generate_session_data [e2; e1]) /\
              Session.session_id s' = Session.session_id s /\
              Session.events_count s' = Session.events_count s /\
              Session.page_views s' = Session.page_views s /\
              Session.ended_at s' = Session.ended_at s) /\
  (exists e0 r, group (Session.session_id s) [e1; e2] = e0 :: r /\
                Session.user_id s = Event.user_id e0 /\
                Session.device_type s = Event.device_type e0 /\
                Session.platform s = Event.platform e0).
Proof.
  cbv zeta.
  apply (session_derivation_permutation
           [sample_event "user_a" "sess_1" "click" 10 "desktop";
            sample_event "user_a" "sess_1" "page_view" 5 "tablet"]).
  - apply perm_swap.
  - simpl. left. reflexivity.
Defined.

(** C7 (the claim fails as stated): two events carry one session identifier
    and different users; the derived record names the first one's user. *)
Lemma session_events_of_two_users :
  ~ (forall (events : list Event.t) (s : Session.t),
       In s (generate_session_data events) ->
       forall e, In e events ->
                 Event.session_id e = Session.session_id s ->
                 Event.user_id e = Session.user_id s).
Proof.
  intros H.
  pose (e1 := sample_event "user_0001" "sess_007" "click" 10 "desktop").
  pose (e2 := sample_event "user_0002" "sess_007" "click" 20 "desktop").
  specialize (H [e1; e2] _ (or_introl eq_refl) e2
                (or_intror (or_introl eq_refl)) eq_refl).
  vm_compute in H. discriminate.
Qed.

(** C7 (amended): a derived session record names one user, the user of the
    first event met with the session's identifier; when all the events with
    that identifier have the same user, it is that user. *)
Theorem session_user_is_first_seen (events : list Event.t) (s : Session.t) :
  In s (generate_session_data events) ->
  (exists e0 r, group (Session.session_id s) events = e0 :: r /\
                Session.user_id s = Event.user_id e0) /\
  (forall u, (forall e, In e events ->
                        Event.session_id e = Session.session_id s ->
                        Event.user_id e = u) ->
             Session.user_id s = u).
Proof.
  intros H.
  destruct (session_of_group _ _ H) as (s0 & e0 & r & G & Hsum & ->).
  destruct (set_duration_fixed s0) as (Hid & Hu & _).
  rewrite Hid in G. rewrite Hid, Hu.
  apply summary_first in Hsum. destruct Hsum as (_ & -> & _).
  split; [now exists e0, r|].
  intros u Hall.
  assert (In e0 (group (Session.session_id s0) events)) as Hin
      by (rewrite G; now left).
  apply group_In in Hin. destruct Hin. now apply Hall.
Qed.

(** One session identifier used by two users. *)
Lemma session_user_is_first_seen_witness :
  let e1 := sample_event "user_0001" "sess_007" "click" 10 "desktop" in
  let e2 := sample_event "user_0002" "sess_007" "click" 20 "desktop" in
  let s := set_duration (fold_left absorb_event [e1; e2] (new_session e1)) in
  (exists e0 r, group (Session.session_id s) [e1; e2] = e0 :: r /\
                Session.user_id s = Event.user_id e0) /\
  (forall u, (forall e, In e [e1; e2] ->
                        Event.session_id e = Session.session_id s ->
                        Event.user_id e = u) ->
             Session.user_id s = u).
Proof.
  cbv zeta.
  apply (session_user_is_first_seen
           [sample_event "user_0001" "sess_007" "click" 10 "desktop";
            sample_event "user_0002" "sess_007" "click" 20 "desktop"]).
  simpl. left. reflexivity.
Defined.

(** ** Reasoning about generators *)

Lemma bind_Ok {A B} (m : gen A) (k : A -> gen B) w c b c' :
  bind m k w c = Ok (b, c') ->
  exists a c1, m w c = Ok (a, c1) /\ k a w c1 = Ok (b, c').
Proof.
  unfold bind. destruct (m w c) as [[a c1]|e]; [eauto|discriminate].
Qed.

Lemma ret_Ok {A} (a b : A) w c c' : ret a w c = Ok (b, c') -> b = a /\ c' = c.
Proof. unfold ret. now intros [= -> ->]. Qed.

(** Taking a successful run apart, one bind at a time. *)
Ltac run_inv H :=
  cbv beta in H;
  repeat match type of H with
    | bind _ _ _ _ = Ok _ =>
        let a := fresh "a" in let c := fresh "c" in let H1 := fresh "R" in
        apply bind_Ok in H; destruct H as (a & c & H1 & H)
    | ret _ _ _ = Ok _ => apply ret_Ok in H; destruct H as [? ?]; subst
    end.

Lemma randint_Ok (a b : Z) w c r c' :
  randint a b w c = Ok (r, c') -> a <= r <= b.
Proof.
  unfold randint. destruct (Z.ltb_spec b a) as [|Hab]; [discriminate|].
  intros H. run_inv H.
  pose proof (Z.mod_pos_bound a0 (b - a + 1)). lia.
Qed.

Lemma randint_empty (a b : Z) w c :
  b < a -> randint a b w c = Raise ValueError.
Proof.
  intros H. unfold randint. now destruct (Z.ltb_spec b a); [|lia].
Qed.

Lemma choice_Ok {A} (l : list A) w c x c' :
  choice l w c = Ok (x, c') -> In x l.
Proof.
  destruct l as [|x0 l]; [discriminate|]. unfold choice. intros H. run_inv H.
  apply nth_In. apply Nat2Z.inj_lt. rewrite Z2Nat.id.
  - apply Z.mod_pos_bound. simpl List.length. lia.
  - apply Z.mod_pos_bound. simpl List.length. lia.
Qed.

(** An invariant of a loop that appends: [Q] relates what was iterated over
    with what was appended. *)
Lemma for_each_inv {A B} (Q : list A -> list B -> Prop)
    (body : A -> gen (list B)) w :
  Q [] [] ->
  (forall x l o out c c',
      body x w c = Ok (o, c') -> Q l out -> Q (x :: l) (o ++ out)) ->
  forall l c out c', for_each l body w c = Ok (out, c') -> Q l out.
Proof.
  intros Hnil Hcons l. induction l as [|x l IH]; intros c out c' H.
  - cbn [for_each] in H. apply ret_Ok in H. destruct H as [-> _]. exact Hnil.
  - cbn [for_each] in H. run_inv H.
    eapply Hcons; [eassumption|]. eapply IH; eassumption.
Qed.

Lemma for_each_Forall {A B} (P : B -> Prop) (body : A -> gen (list B)) w l :
  (forall x c o c', In x l -> body x w c = Ok (o, c') -> Forall P o) ->
  forall c out c', for_each l body w c = Ok (out, c') -> Forall P out.
Proof.
  induction l as [|x l IH]; intros Hb c out c' H.
  - cbn [for_each] in H. apply ret_Ok in H. destruct H as [-> _]. constructor.
  - cbn [for_each] in H. run_inv H. apply Forall_app. split.
    + eapply Hb; [now left|eassumption].
    + eapply IH; [|eassumption]. intros; eapply Hb; [right|]; eassumption.
Qed.

Lemma for_each_length {A B} (body : A -> gen (list B)) w (n : nat) l :
  (forall x c o c', body x w c = Ok (o, c') -> List.length o = n) ->
  forall c out c', for_each l body w c = Ok (out, c') ->
                   List.length out = (List.length l * n)%nat.
Proof.
  intros Hb. induction l as [|x l IH]; intros c out c' H.
  - cbn [for_each] in H. apply ret_Ok in H. now destruct H as [-> _].
  - cbn [for_each] in H. run_inv H. rewrite length_app.
    erewrite Hb, IH by eassumption. reflexivity.
Qed.

Lemma range_length (n : Z) : List.length (range n) = Z.to_nat n.
Proof. unfold range. now rewrite length_map, length_seq. Qed.

Lemma range_In (n i : Z) : In i (range n) <-> 0 <= i < n.
Proof.
  unfold range. rewrite in_map_iff. split.
  - intros (k & <- & Hk). apply in_seq in Hk. lia.
  - intros H. exists (Z.to_nat i). split; [lia|]. apply in_seq. lia.
Qed.

Lemma range_nonpos (n : Z) : n <= 0 -> range n = [].
Proof.
  intros H. unfold range. replace (Z.to_nat n) with O by lia. reflexivity.
Qed.

(** *** Generators that cannot raise *)

Lemma succeeds_ret {A} (a : A) : succeeds (ret a).
Proof. intros w c. now exists a, c. Qed.

Lemma succeeds_bind {A B} (m : gen A) (k : A -> gen B) :
  succeeds m -> (forall a, succeeds (k a)) -> succeeds (bind m k).
Proof.
  intros Hm Hk w c. destruct (Hm w c) as (a & c1 & Ha).
  destruct (Hk a w c1) as (b & c2 & Hb).
  exists b, c2. unfold bind. now rewrite Ha.
Qed.

Lemma succeeds_next_random : succeeds next_random.
Proof. intros w c. unfold next_random. eauto. Qed.

Lemma succeeds_next_entropy : succeeds next_entropy.
Proof. intros w c. unfold next_entropy. eauto. Qed.

Lemma succeeds_now : succeeds now.
Proof. intros w c. unfold now. eauto. Qed.

Lemma succeeds_randint (a b : Z) : a <= b -> succeeds (randint a b).
Proof.
  intros H. unfold randint. destruct (Z.ltb_spec b a); [lia|].
  apply succeeds_bind; [apply succeeds_next_random|intros; apply succeeds_ret].
Qed.

Lemma succeeds_choice {A} (l : list A) : l <> [] -> succeeds (choice l).
Proof.
  destruct l as [|x l]; [congruence|]. intros _. unfold choice.
  apply succeeds_bind; [apply succeeds_next_random|intros; apply succeeds_ret].
Qed.

Lemma succeeds_for_each {A B} (l : list A) (body : A -> gen (list B)) :
  (forall x, succeeds (body x)) -> succeeds (for_each l body).
Proof.
  intros Hb. induction l as [|x l IH]; cbn [for_each].
  - apply succeeds_ret.
  - apply succeeds_bind; [apply Hb|intros].
    apply succeeds_bind; [apply IH|intros; apply succeeds_ret].
Qed.

Ltac succeeds_step :=
  lazymatch goal with
  | |- succeeds (ret _) => apply succeeds_ret
  | |- succeeds next_random => apply succeeds_next_random
  | |- succeeds next_entropy => apply succeeds_next_entropy
  | |- succeeds now => apply succeeds_now
  | |- succeeds (randint _ _) => apply succeeds_randint; lia
  | |- succeeds (choice _) => apply succeeds_choice; discriminate
  | |- succeeds (for_each _ _) => apply succeeds_for_each; intros
  | |- succeeds (bind _ _) => apply succeeds_bind; [|intros]
  | |- succeeds (if ?b then _ else _) => destruct b
  end.

Lemma succeeds_uuid4_hex8 : succeeds uuid4_hex8.
Proof. unfold uuid4_hex8. repeat succeeds_step. Qed.

Lemma succeeds_generate_user : succeeds generate_user.
Proof.
  unfold generate_user, choices, generate_user_id, generate_email,
    random_below_02.
  repeat first [succeeds_step | apply succeeds_uuid4_hex8].
Qed.

Lemma succeeds_generate_user_data cfg : succeeds (generate_user_data cfg).
Proof.
  unfold generate_user_data.
  repeat first [succeeds_step | apply succeeds_generate_user].
Qed.

(** ** Events of [generate_event_data] *)

Lemma event_metadata_keys (event_type : string) w c md c' :
  event_metadata event_type w c = Ok (md, c') ->
  map fst md = metadata_keys event_type.
Proof.
  unfold event_metadata, metadata_keys. intros H.
  repeat match type of H with
    | context [if ?b then _ else _] => destruct b
    end; run_inv H; reflexivity.
Qed.

(** What one iteration of the innermost loop appends. *)
Lemma generate_event_Ok (user_id session_id : string) (t : datetime) w c e c' :
  generate_event user_id session_id t w c = Ok (e, c') ->
  Event.user_id e = user_id /\
  Event.session_id e = session_id /\
  (exists m, 0 <= m <= 120 /\ Event.event_timestamp e = t + timedelta 0 0 m) /\
  In (Event.event_type e) EVENT_TYPES /\
  map fst (Event.metadata e) = metadata_keys (Event.event_type e).
Proof.
  unfold generate_event, choices. intros H. run_inv H.
  cbn [Event.user_id Event.session_id Event.event_timestamp Event.event_type
       Event.metadata].
  repeat split.
  - exists a. split; [eapply randint_Ok; eassumption|reflexivity].
  - eapply choice_Ok; eassumption.
  - eapply event_metadata_keys; eassumption.
Qed.

Lemma date_le (t t' : datetime) : t <= t' -> date t <= date t'.
Proof. intros H. apply Z.div_le_mono; [reflexivity|assumption]. Qed.

Lemma timedelta_nonneg (d h m : Z) :
  0 <= d -> 0 <= h -> 0 <= m -> 0 <= timedelta d h m.
Proof.
  intros. unfold timedelta, usec_per_day, usec_per_hour, usec_per_minute,
    usec_per_second. lia.
Qed.

(** What one iteration of the loop over the days appends. *)
Lemma generate_day_Ok cfg start_date user_id created day_offset w c out c' :
  generate_day cfg start_date user_id created day_offset w c = Ok (out, c') ->
  (out = [] \/
   Z.of_nat (List.length out) <= snd (EVENTS_PER_USER_PER_DAY cfg)) /\
  (exists sid, Forall (fun e => Event.session_id e = sid) out) /\
  Forall (fun e =>
            Event.user_id e = user_id /\
            date created <= date (Event.event_timestamp e) /\
            start_date + timedelta day_offset 8 0
              <= Event.event_timestamp e /\
            In (Event.event_type e) EVENT_TYPES /\
            map fst (Event.metadata e) = metadata_keys (Event.event_type e))
         out.
Proof.
  unfold generate_day.
  destruct (Z.ltb_spec (date (start_date + timedelta day_offset 0 0))
                       (date created)) as [Hskip|Hdate].
  - intros H. run_inv H. repeat split; auto. now exists ""%string.
  - intros H. run_inv H.
    apply randint_Ok in R. apply randint_Ok in R1. apply randint_Ok in R2.
    assert (Hev : Forall (fun e =>
              Event.user_id e = user_id /\ Event.session_id e = a0 /\
              (exists m, 0 <= m <= 120 /\
                 Event.event_timestamp e =
                   start_date + timedelta day_offset 0 0 + timedelta 0 a1 a2
                   + timedelta 0 0 m) /\
              In (Event.event_type e) EVENT_TYPES /\
              map fst (Event.metadata e) = metadata_keys (Event.event_type e))
            out).
    { eapply for_each_Forall; [|exact H].
      intros x ? o ? _ Hb. run_inv Hb. constructor; [|constructor].
      eapply generate_event_Ok; eassumption. }
    split; [|split].
    + assert (Hlen : List.length out = (List.length (range a) * 1)%nat).
      { eapply for_each_length; [|exact H].
        intros x ? o ? Hb. run_inv Hb. reflexivity. }
      rewrite range_length in Hlen.
      destruct (Z.lt_ge_cases a 0).
      * left. apply length_zero_iff_nil. lia.
      * right. lia.
    + exists a0. eapply Forall_impl; [|exact Hev]. tauto.
    + eapply Forall_impl; [|exact Hev].
      intros e (Hu & _ & (m & Hm & Hts) & Hty & Hmd).
      assert (start_date + timedelta day_offset 8 0
              <= Event.event_timestamp e).
      { rewrite Hts. unfold timedelta, usec_per_day, usec_per_hour,
          usec_per_minute, usec_per_second. lia. }
      repeat split; auto.
      etransitivity; [exact Hdate|]. apply date_le.
      revert H0. unfold timedelta, usec_per_day, usec_per_hour,
          usec_per_minute, usec_per_second. lia.
Qed.

Lemma bounded_nil (k : Z) : bounded 0 k [].
Proof.
  split; [simpl; lia|]. exists []. split; [reflexivity|]. intros x [].
Qed.

Lemma bounded_app (n m : nat) (k : Z) (a b : list Event.t) :
  bounded n k a -> bounded m k b -> bounded (n + m) k (a ++ b).
Proof.
  intros [La (ia & Hia & Ia)] [Lb (ib & Hib & Ib)]. split.
  - rewrite length_app. lia.
  - exists (ia ++ ib). split; [rewrite length_app; lia|].
    rewrite map_app. now apply incl_app_app.
Qed.

Lemma for_each_bounded {A} (body : A -> gen (list Event.t)) w (n : nat) (k : Z)
    (l : list A) :
  (forall x c o c', body x w c = Ok (o, c') -> bounded n k o) ->
  forall c out c', for_each l body w c = Ok (out, c') ->
                   bounded (List.length l * n) k out.
Proof.
  intros Hb.
  apply (for_each_inv (fun l out => bounded (List.length l * n) k out)).
  - apply bounded_nil.
  - intros x l0 o out c c' Ho Hout. cbn [List.length Nat.mul].
    apply bounded_app; [eapply Hb; eassumption|assumption].
Qed.

Lemma generate_day_bounded cfg start_date user_id created day_offset w c out c' :
  0 <= snd (EVENTS_PER_USER_PER_DAY cfg) ->
  generate_day cfg start_date user_id created day_offset w c = Ok (out, c') ->
  bounded 1 (snd (EVENTS_PER_USER_PER_DAY cfg)) out.
Proof.
  intros Hhi H. apply generate_day_Ok in H.
  destruct H as (Hlen & (sid & Hsid) & _). split.
  - destruct Hlen as [->|Hlen]; cbn [List.length]; lia.
  - exists [sid]. split; [reflexivity|].
    intros x Hx. apply in_map_iff in Hx. destruct Hx as (e & <- & He).
    rewrite Forall_forall in Hsid. left. symmetry. auto.
Qed.

Lemma generate_event_data_bounded cfg users w c events c' :
  0 <= NUM_DAYS cfg ->
  0 <= snd (EVENTS_PER_USER_PER_DAY cfg) ->
  generate_event_data cfg users w c = Ok (events, c') ->
  bounded (List.length users * Z.to_nat (NUM_DAYS cfg))
          (snd (EVENTS_PER_USER_PER_DAY cfg)) events.
Proof.
  intros Hd Hhi H. unfold generate_event_data in H. run_inv H.
  eapply for_each_bounded; [|exact H].
  intros u c1 o c2 Hu. rewrite <- (Nat.mul_1_r (Z.to_nat _)).
  rewrite <- range_length.
  eapply for_each_bounded; [|exact Hu].
  intros k c3 o' c4. now apply generate_day_bounded.
Qed.

Lemma bounded_distinct (n : nat) (k : Z) (events : list Event.t) :
  bounded n k events -> (List.length (distinct_session_ids events) <= n)%nat.
Proof.
  intros [_ (ids & Hlen & Hincl)]. unfold distinct_session_ids.
  etransitivity; [|exact Hlen].
  apply NoDup_incl_length; [apply NoDup_nodup|].
  intros x Hx. apply Hincl. now apply nodup_In in Hx.
Qed.

(** C10: a completed run of [generate_event_data] over U users, a span of
    D days and a range (min, max) returns at most U * D * max events carrying
    at most U * D distinct session identifiers, and every session derived
    from them has a duration of at least zero seconds. *)
Theorem event_and_session_counts cfg users w c events c' :
  0 <= NUM_DAYS cfg ->
  0 <= snd (EVENTS_PER_USER_PER_DAY cfg) ->
  generate_event_data cfg users w c = Ok (events, c') ->
  Z.of_nat (List.length events)
    <= Z.of_nat (List.length users) * NUM_DAYS cfg
       * snd (EVENTS_PER_USER_PER_DAY cfg) /\
  Z.of_nat (List.length (distinct_session_ids events))
    <= Z.of_nat (List.length users) * NUM_DAYS cfg /\
  forall s, In s (generate_session_data events) ->
            exists d, Session.duration_seconds s = Some d /\ 0 <= d.
Proof.
  intros Hd Hhi H.
  pose proof (generate_event_data_bounded _ _ _ _ _ _ Hd Hhi H) as B.
  pose proof (bounded_distinct _ _ _ B) as D. destruct B as [L _].
  split; [|split].
  - rewrite Nat2Z.inj_mul, Z2Nat.id in L by assumption. exact L.
  - apply Nat2Z.inj_le in D.
    rewrite Nat2Z.inj_mul, Z2Nat.id in D by assumption. exact D.
  - intros s Hs. apply session_span in Hs.
    destruct Hs as (ended & _ & Hle & Hdur). eexists. split; [exact Hdur|].
    apply total_seconds_int_nonneg. lia.
Qed.

(** ** Users *)

Lemma generate_user_Ok w c u c' :
  generate_user w c = Ok (u, c') ->
  exists n d du,
    1 <= d <= 365 /\ 0 <= du <= 30 /\
    User.created_at u = wall_clock w n - timedelta d 0 0 /\
    User.updated_at u = User.created_at u + timedelta du 0 0.
Proof.
  unfold generate_user. intros H. run_inv H.
  apply randint_Ok in R2. apply randint_Ok in R5.
  exists (clock_pos c1), a2, a5. cbn [User.created_at User.updated_at].
  repeat split; try lia.
  unfold now in R1. now inversion R1.
Qed.

(** In [scripts/generate_sample_data.py] the last update of a user is its
    creation plus 0 to 30 days, the creation 1 to 365 days before the clock
    reading. *)
Lemma generate_user_data_updated_after_created cfg w c users c' :
  generate_user_data cfg w c = Ok (users, c') ->
  Forall (fun u => User.created_at u <= User.updated_at u
                   <= User.created_at u + timedelta 30 0 0) users.
Proof.
  unfold generate_user_data. apply for_each_Forall.
  intros x c1 o c2 _ H. run_inv H. constructor; [|constructor].
  apply generate_user_Ok in R. destruct R as (n & d & du & _ & Hdu & _ & ->).
  unfold timedelta, usec_per_day, usec_per_hour, usec_per_minute,
    usec_per_second. lia.
Qed.

(** C8 (code at the failing input): [simple_data_generator.py], the clock at
    noon of day 19000, [random.randint(1, 365)] giving 1 and
    [random.randint(0, 30)] giving 30 for the first user.  The user is created
    one day before noon and last updated thirty days before noon. *)
Theorem simple_user_updated_before_created :
  exists users,
    outcome (Simple.generate_users 100) (noon_world [(1%N, 30)]) = Ok users /\
    exists u, In u users /\
              User.created_at u = 18999 * usec_per_day + 12 * usec_per_hour /\
              User.updated_at u = 18970 * usec_per_day + 12 * usec_per_hour
                                  + 1000 /\
              User.updated_at u < User.created_at u.
Proof.
  eexists. split; [vm_compute; reflexivity|].
  eexists. split; [left; reflexivity|]. vm_compute. auto.
Qed.

(** ** Metadata *)

Lemma simple_event_metadata_keys (event_type : string) w c md c' :
  Simple.event_metadata event_type w c = Ok (md, c') ->
  map fst md = simple_metadata_keys event_type.
Proof.
  unfold Simple.event_metadata, simple_metadata_keys. intros H.
  repeat match type of H with
    | context [if ?b then _ else _] => destruct b
    end; run_inv H; reflexivity.
Qed.

Lemma generate_event_data_Ok cfg users w c events c' :
  generate_event_data cfg users w c = Ok (events, c') ->
  Forall (fun e =>
            (exists u, In u users /\ User.user_id u = Event.user_id e /\
                       date (User.created_at u)
                         <= date (Event.event_timestamp e)) /\
            In (Event.event_type e) EVENT_TYPES /\
            map fst (Event.metadata e) = metadata_keys (Event.event_type e))
         events.
Proof.
  unfold generate_event_data. intros H. run_inv H.
  eapply for_each_Forall; [|exact H].
  intros u c1 o c2 Hu Ho. cbv beta in Ho.
  eapply for_each_Forall; [|exact Ho].
  intros k c3 o' c4 _ Hd. apply generate_day_Ok in Hd.
  destruct Hd as (_ & _ & Hd). eapply Forall_impl; [|exact Hd].
  intros e (He & Hdate & _ & Hty & Hmd). repeat split; auto.
  exists u. auto.
Qed.

Lemma simple_generate_events_Ok num_events num_days users w c events c' :
  Simple.generate_events num_events num_days users w c = Ok (events, c') ->
  Forall (fun e =>
            In (Event.user_id e) (map User.user_id users) /\
            In (Event.event_type e) Simple.event_types /\
            map fst (Event.metadata e)
              = simple_metadata_keys (Event.event_type e))
         events.
Proof.
  unfold Simple.generate_events. apply for_each_Forall.
  intros i c1 o c2 _ H. run_inv H. constructor; [|constructor].
  unfold Simple.generate_event in R. run_inv R.
  cbn [Event.user_id Event.event_type Event.metadata]. repeat split.
  - eapply choice_Ok; eassumption.
  - eapply choice_Ok; eassumption.
  - eapply simple_event_metadata_keys; eassumption.
Qed.

(** C9 (the claim fails as stated): the first event of
    [simple_data_generator.py] when [random.choice(event_types)] gives
    "click".  Its metadata map is empty, not {element, page}. *)
Lemma simple_click_without_metadata :
  exists users events sessions,
    outcome (Simple.generate_sample_data 100 1000 30)
            (noon_world [(401%N, 5)]) = Ok (users, events, sessions) /\
    exists e, In e events /\
              Event.event_type e = "click"%string /\
              Event.metadata e = [] /\
              map fst (Event.metadata e) <> metadata_keys (Event.event_type e).
Proof.
  eexists. eexists. eexists. split; [vm_compute; reflexivity|].
  eexists. split; [left; reflexivity|]. vm_compute.
  repeat split; discriminate.
Qed.

(** C9 (amended): the metadata keys of an event are a function of its type.
    For [generate_event_data] it is the table of the specification; for
    [simple_data_generator.py] purchase, page_view and signup carry the same
    keys and every other type, click, scroll and search included, the empty
    map. *)
Theorem metadata_keys_by_event_type cfg num_events num_days users w c :
  (forall events c',
      generate_event_data cfg users w c = Ok (events, c') ->
      Forall (fun e => map fst (Event.metadata e)
                       = metadata_keys (Event.event_type e)) events) /\
  (forall events c',
      Simple.generate_events num_events num_days users w c = Ok (events, c') ->
      Forall (fun e => map fst (Event.metadata e)
                       = simple_metadata_keys (Event.event_type e)) events) /\
  (forall event_type,
      In event_type ["login"; "logout"]%string ->
      metadata_keys event_type = [] /\ simple_metadata_keys event_type = []) /\
  (forall event_type,
      In event_type ["click"; "scroll"; "search"]%string ->
      metadata_keys event_type <> [] /\ simple_metadata_keys event_type = []).
Proof.
  split; [|split; [|split]].
  - intros events c' H. apply generate_event_data_Ok in H.
    eapply Forall_impl; [|exact H]. now intros e (_ & _ & He).
  - intros events c' H. apply simple_generate_events_Ok in H.
    eapply Forall_impl; [|exact H]. now intros e (_ & _ & He).
  - intros ty [<-|[<-|[]]]; split; reflexivity.
  - intros ty [<-|[<-|[<-|[]]]]; split; (reflexivity || discriminate).
Qed.

(** ** Events and the creation of their user *)

(** The day-skip keeps every event on or after the creation day of the user
    it is generated for. *)
Lemma generate_event_data_not_before_creation_day cfg users w c events c' :
  generate_event_data cfg users w c = Ok (events, c') ->
  forall e, In e events ->
  exists u, In u users /\ User.user_id u = Event.user_id e /\
            date (User.created_at u) <= date (Event.event_timestamp e).
Proof.
  intros H e He. apply generate_event_data_Ok in H.
  rewrite Forall_forall in H. now destruct (H e He).
Qed.

(** C1 (code at the failing input): [generate_event_data] called at noon of
    day 19000 with a user created at 23:00 of day 18999.  The last day of the
    span is the creation day, so it is not skipped, and its session starts at
    noon plus eight hours: the event is dated 20:00, three hours before the
    user exists. *)
Theorem event_before_user_creation :
  exists events,
    outcome (generate_event_data default_config [evening_user]) (noon_world [])
      = Ok events /\
    exists e, In e events /\
              Event.user_id e = User.user_id evening_user /\
              date (Event.event_timestamp e)
                = date (User.created_at evening_user) /\
              Event.event_timestamp e
                = 18999 * usec_per_day + 20 * usec_per_hour /\
              Event.event_timestamp e < User.created_at evening_user.
Proof.
  eexists. split; [vm_compute; reflexivity|].
  eexists. split; [left; reflexivity|]. vm_compute. auto.
Qed.

(** The same from [main]: one user, generated at 23:59:59; the events are
    generated one second later, after midnight.  The user is created at
    23:59:59 of the day before and gets an event at 08:00 of that day. *)
Lemma main_event_before_user_creation :
  exists users events sessions,
    outcome (main (mk_config 1 30 (1, 20))) late_evening_world
      = Ok (users, events, sessions) /\
    exists u e, In u users /\ In e events /\
                Event.user_id e = User.user_id u /\
                User.created_at u
                  = 18999 * usec_per_day + 86399 * usec_per_second /\
                Event.event_timestamp e
                  = 18999 * usec_per_day + 8 * usec_per_hour /\
                Event.event_timestamp e < User.created_at u.
Proof.
  eexists. eexists. eexists. split; [vm_compute; reflexivity|].
  eexists. eexists. split; [left; reflexivity|].
  split; [left; reflexivity|]. vm_compute. auto.
Qed.

(** The same in [simple_data_generator.py], which has no day-skip: the first
    event is drawn 30 days back for a user created one day back. *)
Lemma simple_event_before_user_creation :
  exists users events sessions,
    outcome (Simple.generate_sample_data 100 1000 30)
            (noon_world [(402%N, 30)]) = Ok (users, events, sessions) /\
    exists u e, In u users /\ In e events /\
                Event.user_id e = User.user_id u /\
                Event.event_timestamp e < User.created_at u.
Proof.
  eexists. eexists. eexists. split; [vm_compute; reflexivity|].
  eexists. eexists. split; [left; reflexivity|].
  split; [left; reflexivity|]. vm_compute. auto.
Qed.

(** ** The session defects, from generated events *)

(** [generate_event_data] gives the events of a session independent offsets
    in generation order: here the first day gets two events, the first ten
    minutes after the session start and the second at the session start.
    The derived session starts after one of its own events. *)
Lemma generated_session_starts_after_an_event :
  exists events sessions,
    outcome (generate_event_data default_config (sample_users 1))
            (noon_world [(0%N, 1); (3%N, 10)]) = Ok events /\
    generate_session_data events = sessions /\
    exists s e, In s sessions /\ In e events /\
                Event.session_id e = Session.session_id s /\
                Event.event_timestamp e < Session.started_at s.
Proof.
  eexists. eexists. split; [vm_compute; reflexivity|].
  split; [vm_compute; reflexivity|].
  eexists. eexists. split; [left; reflexivity|].
  split; [right; left; reflexivity|]. vm_compute. auto.
Qed.

(** [simple_data_generator.py] draws the user and the session identifier of
    an event independently: the first two events share session "sess_001"
    and belong to two users. *)
Lemma simple_session_of_two_users :
  exists users events sessions,
    outcome (Simple.generate_sample_data 100 1000 30)
            (noon_world [(411%N, 1)]) = Ok (users, events, sessions) /\
    exists e1 e2, In e1 events /\ In e2 events /\
                  Event.session_id e1 = Event.session_id e2 /\
                  Event.user_id e1 = "user_0001"%string /\
                  Event.user_id e2 = "user_0002"%string.
Proof.
  eexists. eexists. eexists. split; [vm_compute; reflexivity|].
  eexists. eexists. split; [left; reflexivity|].
  split; [right; left; reflexivity|]. vm_compute. auto.
Qed.

(** ** Configuration *)

Lemma range_first (n : Z) : 0 < n -> exists l, range n = 0 :: l.
Proof.
  intros H. unfold range.
  destruct (Z.to_nat n) as [|k] eqn:E; [lia|].
  exists (map Z.of_nat (seq 1 k)). reflexivity.
Qed.

Lemma for_each_no_output {A B} (l : list A) (body : A -> gen (list B)) w c :
  (forall x c, body x w c = Ok ([], c)) -> for_each l body w c = Ok ([], c).
Proof.
  intros Hb. induction l as [|x l IH]; [reflexivity|].
  cbn [for_each]. unfold bind. rewrite Hb, IH. reflexivity.
Qed.

(** C5 (the claim fails as stated): with a user count of zero the whole run
    returns three empty datasets and raises nothing. *)
Lemma empty_output_without_error :
  ~ (forall cfg w,
       NUM_USERS cfg <= 0 \/ NUM_DAYS cfg <= 0 \/
       snd (EVENTS_PER_USER_PER_DAY cfg) < fst (EVENTS_PER_USER_PER_DAY cfg) ->
       exists e, outcome (main cfg) w = Raise e).
Proof.
  intros H.
  destruct (H (mk_config 0 30 (1, 20)) (noon_world [])) as [e He].
  - left. simpl. lia.
  - vm_compute in He. discriminate.
Qed.

Lemma for_each_kept_or_empty {A B} (l : list A) (body : A -> gen (list B))
    (kept : A -> bool) (e : pyerror) w :
  (forall x c, body x w c = if kept x then Raise e else Ok ([], c)) ->
  forall c, for_each l body w c
            = if existsb kept l then Raise e else Ok ([], c).
Proof.
  intros Hb. induction l as [|x l IH]; intros c; [reflexivity|].
  cbn [for_each existsb]. unfold bind. rewrite Hb.
  destruct (kept x); [reflexivity|]. rewrite IH.
  destruct (existsb kept l); reflexivity.
Qed.

Lemma generate_day_empty_range cfg start_date user_id created day_offset w c :
  snd (EVENTS_PER_USER_PER_DAY cfg) < fst (EVENTS_PER_USER_PER_DAY cfg) ->
  generate_day cfg start_date user_id created day_offset w c
  = if day_kept start_date created day_offset then Raise ValueError
    else Ok ([], c).
Proof.
  intros Hr. unfold generate_day, day_kept. cbv zeta.
  destruct (date (start_date + timedelta day_offset 0 0) <? date created);
    [reflexivity|].
  cbn [negb]. unfold bind. now rewrite randint_empty.
Qed.

(** C5 (amended): no configuration value is checked.  A user count of zero or
    less makes [generate_user_data] return the empty list and a day span of
    zero or less makes [generate_event_data] return the empty list, both
    without an error.  A range with min > max makes [generate_event_data]
    raise the [ValueError] of [random.randint] when some day of some user is
    not skipped, and return the empty list when every day is skipped.  The
    day span is one a [timedelta] can hold and the start of the span is a
    datetime. *)
Theorem configuration_is_not_validated cfg w c :
  let t := wall_clock w (clock_pos c) in
  let start_date := t - timedelta (NUM_DAYS cfg) 0 0 in
  let c1 := mk_cursor (random_pos c) (entropy_pos c) (N.succ (clock_pos c)) in
  (NUM_USERS cfg <= 0 -> generate_user_data cfg w c = Ok ([], c)) /\
  (NUM_DAYS cfg <= 0 ->
   - timedelta_max_days <= NUM_DAYS cfg ->
   representable t -> representable start_date ->
   forall users, generate_event_data cfg users w c = Ok ([], c1)) /\
  (snd (EVENTS_PER_USER_PER_DAY cfg) < fst (EVENTS_PER_USER_PER_DAY cfg) ->
   - timedelta_max_days <= NUM_DAYS cfg <= timedelta_max_days ->
   representable t -> representable start_date ->
   forall users,
     generate_event_data cfg users w c
     = if some_day_kept cfg start_date users then Raise ValueError
       else Ok ([], c1)).
Proof.
  cbv zeta. split; [|split].
  - intros H. unfold generate_user_data. now rewrite range_nonpos.
  - intros H _ _ _ users. unfold generate_event_data, bind, now.
    rewrite range_nonpos by assumption.
    apply for_each_no_output. reflexivity.
  - intros Hr _ _ _ users. unfold generate_event_data, bind, now, some_day_kept.
    apply for_each_kept_or_empty. intros user c2.
    apply for_each_kept_or_empty. intros day_offset c3.
    now apply generate_day_empty_range.
Qed.

(** At noon of day 19000: no users; ten users and no days; ten users created
    on day 18000 with the range (5, 1), whose first day is generated; one
    user created the day after the run with the range (5, 1), whose days are
    all skipped. *)
Lemma configuration_is_not_validated_witness :
  let later_user :=
    User.mk "user_0001" "user@example.com" (19001 * usec_per_day)
            (19001 * usec_per_day) "User" "Example" "US" "America/New_York"
            "basic" [] in
  generate_user_data (mk_config 0 30 (1, 20)) (noon_world []) start
    = Ok ([], start) /\
  generate_event_data (mk_config 10 0 (1, 20)) (sample_users 10)
    (noon_world []) start = Ok ([], mk_cursor 0 0 1) /\
  generate_event_data (mk_config 10 30 (5, 1)) (sample_users 10)
    (noon_world []) start = Raise ValueError /\
  generate_event_data (mk_config 1 30 (5, 1)) [later_user]
    (noon_world []) start = Ok ([], mk_cursor 0 0 1).
Proof.
  cbv zeta. split; [|split; [|split]].
  - destruct (configuration_is_not_validated (mk_config 0 30 (1, 20))
                (noon_world []) start) as (T & _ & _).
    apply T. cbn [NUM_USERS]. lia.
  - destruct (configuration_is_not_validated (mk_config 10 0 (1, 20))
                (noon_world []) start) as (_ & T & _).
    apply T; try (vm_compute; split; discriminate); vm_compute; discriminate.
  - destruct (configuration_is_not_validated (mk_config 10 30 (5, 1))
                (noon_world []) start) as (_ & _ & T).
    rewrite T; try (vm_compute; split; discriminate);
      vm_compute; reflexivity.
  - destruct (configuration_is_not_validated (mk_config 1 30 (5, 1))
                (noon_world []) start) as (_ & _ & T).
    rewrite T; try (vm_compute; split; discriminate);
      vm_compute; reflexivity.
Defined.

(** ** Determinism *)

Lemma follows_draws_ret {A} (R : A -> A -> Prop) (a a' : A) :
  R a a' -> follows_draws R (ret a) (ret a').
Proof.
  intros HR w w' c c' x c1 x' c1' _ Hp H H'.
  apply ret_Ok in H. apply ret_Ok in H'.
  destruct H as [-> ->], H' as [-> ->]. now split.
Qed.

Lemma follows_draws_bind {A B} (R : A -> A -> Prop) (Q : B -> B -> Prop)
    (m m' : gen A) (k k' : A -> gen B) :
  follows_draws R m m' ->
  (forall a a', R a a' -> follows_draws Q (k a) (k' a')) ->
  follows_draws Q (bind m k) (bind m' k').
Proof.
  intros Hm Hk w w' c c' b c2 b' c2' Hw Hp H H'.
  apply bind_Ok in H. destruct H as (a & c1 & H1 & H2).
  apply bind_Ok in H'. destruct H' as (a' & c1' & H1' & H2').
  destruct (Hm _ _ _ _ _ _ _ _ Hw Hp H1 H1') as [HR Hp1].
  exact (Hk _ _ HR _ _ _ _ _ _ _ _ Hw Hp1 H2 H2').
Qed.

Lemma follows_draws_next_random : follows_draws eq next_random next_random.
Proof.
  intros w w' c c' a c1 a' c1' Hw Hp H H'. unfold next_random in *.
  injection H as <- <-. injection H' as <- <-.
  cbn [random_pos]. rewrite Hw, Hp. now split.
Qed.

Lemma follows_draws_next_entropy :
  follows_draws (fun _ _ => True) next_entropy next_entropy.
Proof.
  intros w w' c c' a c1 a' c1' Hw Hp H H'. unfold next_entropy in *.
  injection H as <- <-. injection H' as <- <-. now split.
Qed.

Lemma follows_draws_now : follows_draws (fun _ _ => True) now now.
Proof.
  intros w w' c c' a c1 a' c1' Hw Hp H H'. unfold now in *.
  injection H as <- <-. injection H' as <- <-. now split.
Qed.

Lemma follows_draws_randint (a b : Z) :
  follows_draws eq (randint a b) (randint a b).
Proof.
  unfold randint. destruct (b <? a).
  - intros w w' c c' x c1 x' c1' _ _ H. discriminate.
  - eapply follows_draws_bind; [apply follows_draws_next_random|].
    intros r r' <-. now apply follows_draws_ret.
Qed.

Lemma follows_draws_choice {A} (l : list A) :
  follows_draws eq (choice l) (choice l).
Proof.
  unfold choice. destruct l as [|x l].
  - intros w w' c c' a c1 a' c1' _ _ H. discriminate.
  - eapply follows_draws_bind; [apply follows_draws_next_random|].
    intros r r' <-. now apply follows_draws_ret.
Qed.

Lemma follows_draws_random_below_02 :
  follows_draws eq random_below_02 random_below_02.
Proof.
  unfold random_below_02.
  eapply follows_draws_bind; [apply follows_draws_next_random|].
  intros r r' <-. now apply follows_draws_ret.
Qed.

Lemma follows_draws_for_each {A B} (R : B -> B -> Prop) (l : list A)
    (body body' : A -> gen (list B)) :
  (forall x, follows_draws (Forall2 R) (body x) (body' x)) ->
  follows_draws (Forall2 R) (for_each l body) (for_each l body').
Proof.
  intros Hb. induction l as [|x l IH]; cbn [for_each].
  - apply follows_draws_ret. constructor.
  - eapply follows_draws_bind; [apply Hb|]. intros o o' Ho.
    eapply follows_draws_bind; [apply IH|]. intros r r' Hr.
    apply follows_draws_ret. now apply Forall2_app.
Qed.

Lemma follows_draws_generate_user_id :
  follows_draws (fun _ _ => True) generate_user_id generate_user_id.
Proof.
  unfold generate_user_id, uuid4_hex8.
  eapply follows_draws_bind with (R := fun _ _ => True);
    [|intros h h' _; now apply follows_draws_ret].
  eapply follows_draws_bind; [apply follows_draws_next_entropy|].
  intros e e' _. now apply follows_draws_ret.
Qed.

(** The draws settle the drawn fields of a user: the clock reading and the
    identifier enter [created_at], [updated_at] and [user_id] only, and
    neither decides what is drawn next. *)
Lemma follows_draws_generate_user :
  follows_draws same_drawn_fields generate_user generate_user.
Proof.
  unfold generate_user, generate_email, choices. cbv zeta.
  eapply follows_draws_bind; [apply follows_draws_choice|intros first_name ? <-].
  eapply follows_draws_bind; [apply follows_draws_choice|intros last_name ? <-].
  eapply follows_draws_bind; [apply follows_draws_now|intros t t' _].
  eapply follows_draws_bind; [apply follows_draws_randint|intros d ? <-].
  eapply follows_draws_bind;
    [apply follows_draws_generate_user_id|intros user_id user_id' _].
  eapply follows_draws_bind with (R := eq).
  { eapply follows_draws_bind; [apply follows_draws_choice|].
    intros domain ? <-. now apply follows_draws_ret. }
  intros email ? <-.
  eapply follows_draws_bind; [apply follows_draws_randint|intros du ? <-].
  eapply follows_draws_bind; [apply follows_draws_choice|intros country ? <-].
  eapply follows_draws_bind; [apply follows_draws_choice|intros timezone ? <-].
  eapply follows_draws_bind; [apply follows_draws_choice|intros tier ? <-].
  eapply follows_draws_bind; [apply follows_draws_choice|intros source ? <-].
  eapply follows_draws_bind; [apply follows_draws_choice|intros campaign ? <-].
  eapply follows_draws_bind;
    [apply follows_draws_random_below_02|intros with_code ? <-].
  eapply follows_draws_bind with (R := eq).
  { destruct with_code; [|now apply follows_draws_ret].
    eapply follows_draws_bind; [apply follows_draws_randint|].
    intros n ? <-. now apply follows_draws_ret. }
  intros referral_code ? <-.
  apply follows_draws_ret. unfold same_drawn_fields.
  cbn [User.email User.first_name User.last_name User.country User.timezone
       User.subscription_tier User.metadata User.updated_at User.created_at].
  repeat split; lia.
Qed.

Lemma follows_draws_generate_user_data cfg :
  follows_draws (Forall2 same_drawn_fields)
                (generate_user_data cfg) (generate_user_data cfg).
Proof.
  unfold generate_user_data. apply follows_draws_for_each. intros _.
  eapply follows_draws_bind; [apply follows_draws_generate_user|].
  intros u u' Hu. apply follows_draws_ret.
  constructor; [exact Hu|constructor].
Qed.

(** C6 (the claim fails as stated): two runs that make the same random
    draws under the same configuration, one at noon and one late in the
    evening, return different records. *)
Lemma same_draws_different_output :
  ~ (forall cfg w w',
       (forall n, random_draw w n = random_draw w' n) ->
       outcome (main cfg) w = outcome (main cfg) w').
Proof.
  intros H.
  specialize (H (mk_config 1 1 (1, 1)) (noon_world []) late_evening_world
                (fun n => eq_refl)).
  vm_compute in H. discriminate.
Qed.

Lemma main_users cfg w c users events sessions c1 :
  main cfg w c = Ok ((users, events, sessions), c1) ->
  exists c0, generate_user_data cfg w c = Ok (users, c0).
Proof.
  unfold main. intros H. run_inv H. injection H as -> _ _. eauto.
Qed.

(** C6 (amended): the random draws and the configuration settle, user by
    user, every field of the users but [user_id], [created_at] and
    [updated_at], and the time from [created_at] to [updated_at]: two
    completed runs that make the same draws, whatever their clocks and the
    entropy behind their identifiers, return as many users, the same in all
    of those. *)
Theorem draws_settle_drawn_user_fields cfg w w' c c'
    users events sessions c1 users' events' sessions' c1' :
  (forall n, random_draw w n = random_draw w' n) ->
  random_pos c = random_pos c' ->
  main cfg w c = Ok ((users, events, sessions), c1) ->
  main cfg w' c' = Ok ((users', events', sessions'), c1') ->
  Forall2 same_drawn_fields users users'.
Proof.
  intros Hw Hp H H'.
  apply main_users in H. destruct H as [c0 H].
  apply main_users in H'. destruct H' as [c0' H'].
  exact (proj1 (follows_draws_generate_user_data cfg _ _ _ _ _ _ _ _
                  Hw Hp H H')).
Qed.

(** Two runs over the same draws, the third of them 7 and the fourth 12: one
    at noon, one late in the evening with another entropy. *)
Lemma draws_settle_drawn_user_fields_witness :
  let w := noon_world [(2%N, 7); (3%N, 12)] in
  let w' := mk_world (random_draw w) (fun n => 41 + Z.of_N n)
                     (wall_clock late_evening_world) in
  exists users events sessions c1 users' events' sessions' c1',
    main (mk_config 3 2 (1, 2)) w start
      = Ok ((users, events, sessions), c1) /\
    main (mk_config 3 2 (1, 2)) w' start
      = Ok ((users', events', sessions'), c1') /\
    users <> users' /\
    Forall2 same_drawn_fields users users'.
Proof.
  cbv zeta. do 8 eexists.
  split; [vm_compute; reflexivity|].
  split; [vm_compute; reflexivity|].
  split; [vm_compute; discriminate|].
  eapply (draws_settle_drawn_user_fields (mk_config 3 2 (1, 2))
            (noon_world [(2%N, 7); (3%N, 12)])
            (mk_world (random_draw (noon_world [(2%N, 7); (3%N, 12)]))
                      (fun n => 41 + Z.of_N n)
                      (wall_clock late_evening_world))
            start start).
  - intros n. reflexivity.
  - reflexivity.
  - vm_compute. reflexivity.
  - vm_compute. reflexivity.
Defined.

(** The draws do not settle the events, not even their number: a user drawn
    one day old has one of three days generated when the run is at noon, and
    two when midnight falls between the creation of the user and the start
    of the events. *)
Lemma same_draws_different_event_count :
  exists users events sessions c1 users' events' sessions' c1',
    main (mk_config 1 3 (1, 1)) (noon_world []) start
      = Ok ((users, events, sessions), c1) /\
    main (mk_config 1 3 (1, 1)) late_evening_world start
      = Ok ((users', events', sessions'), c1') /\
    (forall n, random_draw (noon_world []) n
               = random_draw late_evening_world n) /\
    List.length events = 1%nat /\ List.length events' = 2%nat.
Proof.
  do 8 eexists.
  split; [vm_compute; reflexivity|].
  split; [vm_compute; reflexivity|].
  split; [intros n; reflexivity|].
  split; reflexivity.
Qed.

(** ** The example of ten users over seven days *)

(** Ten users, seven days, one to three events a day, run at noon: at most
    210 events and 70 session identifiers. *)
Lemma event_and_session_counts_witness :
  exists events c',
    generate_event_data (mk_config 10 7 (1, 3)) (sample_users 10)
      (noon_world []) start = Ok (events, c') /\
    (Z.of_nat (List.length events) <= 210 /\
     Z.of_nat (List.length (distinct_session_ids events)) <= 70 /\
     forall s, In s (generate_session_data events) ->
               exists d, Session.duration_seconds s = Some d /\ 0 <= d).
Proof.
  eexists. eexists. split; [vm_compute; reflexivity|].
  eapply (event_and_session_counts (mk_config 10 7 (1, 3)) (sample_users 10)
            (noon_world []) start).
  - cbn [NUM_DAYS]. lia.
  - cbn [EVENTS_PER_USER_PER_DAY snd]. lia.
  - vm_compute. reflexivity.
Defined.

(** * Further properties of the code *)

(** ** The derived sessions as a whole *)

Lemma first_occurrences_In (l : list string) (x : string) :
  In x (first_occurrences l) <-> In x l.
Proof.
  induction l as [|k r IH]; simpl; [tauto|].
  rewrite filter_In, IH, negb_true_iff, String.eqb_neq.
  destruct (string_dec k x); [tauto|]. split; [tauto|].
  intros [H|H]; [tauto|]. right. split; auto.
Qed.

Lemma filter_absent (k : string) (l : list string) :
  ~ In k l -> filter (fun k' => negb (String.eqb k' k)) l = l.
Proof.
  induction l as [|x l IH]; simpl; [reflexivity|]. intros H.
  destruct (String.eqb_spec x k) as [->|Hne]; [tauto|]. simpl.
  rewrite IH; tauto.
Qed.

Lemma first_occurrences_snoc (l : list string) (x : string) :
  first_occurrences (l ++ [x]) =
  if in_dec string_dec x l then first_occurrences l
  else first_occurrences l ++ [x].
Proof.
  induction l as [|k r IH]; [reflexivity|].
  cbn [app first_occurrences]. rewrite IH.
  destruct (String.eqb_spec x k) as [->|Hne].
  - destruct (in_dec string_dec k (k :: r)) as [_|n]; [|simpl in n; tauto].
    destruct (in_dec string_dec k r); [reflexivity|].
    rewrite filter_app. simpl. rewrite String.eqb_refl. simpl.
    now rewrite app_nil_r.
  - destruct (in_dec string_dec x r) as [i|n];
      destruct (in_dec string_dec x (k :: r)) as [i'|n'].
    + reflexivity.
    + exfalso. apply n'. now right.
    + exfalso. destruct i' as [E|E]; [congruence|tauto].
    + rewrite filter_app. simpl.
      destruct (String.eqb_spec x k); [congruence|]. reflexivity.
Qed.

Lemma fold_event_keys (d : sessions_t) (e : Event.t) :
  dict_keys (fold_event d e) =
  if dict_mem (Event.session_id e) d then dict_keys d
  else dict_keys d ++ [Event.session_id e].
Proof.
  unfold fold_event. destruct (dict_mem (Event.session_id e) d) eqn:M.
  - unfold dict_mem in M.
    destruct (dict_get d (Event.session_id e)) eqn:G; [|discriminate].
    rewrite dict_keys_set. unfold dict_mem. now rewrite G.
  - rewrite dict_get_set_same, dict_keys_set.
    unfold dict_mem at 1. rewrite dict_get_set_same.
    rewrite dict_keys_set. now rewrite M.
Qed.

Lemma session_store_mem (events : list Event.t) (k : string) :
  dict_mem k (session_store events) = true <->
  In k (map Event.session_id events).
Proof.
  unfold dict_mem. rewrite session_store_get, in_map_iff.
  destruct (group k events) as [|e0 r] eqn:G; simpl.
  - split; [discriminate|]. intros (e & He & Hin).
    assert (In e (group k events)) as H by (apply group_In; auto).
    rewrite G in H. destruct H.
  - split; [intros _|reflexivity].
    assert (In e0 (group k events)) as H by (rewrite G; now left).
    apply group_In in H. exists e0. tauto.
Qed.

(** The keys of the store are the session identifiers in the order in which
    they are first met. *)
Lemma session_store_keys (events : list Event.t) :
  dict_keys (session_store events)
  = first_occurrences (map Event.session_id events).
Proof.
  induction events as [|e l IH] using rev_ind; [reflexivity|].
  rewrite map_app. cbn [map]. rewrite first_occurrences_snoc.
  unfold session_store in *. rewrite fold_left_app. simpl fold_left.
  rewrite fold_event_keys, IH.
  pose proof (session_store_mem l (Event.session_id e)) as M.
  unfold session_store in M.
  destruct (dict_mem (Event.session_id e) (fold_left fold_event l [])).
  - destruct (in_dec string_dec _ _) as [_|n]; [reflexivity|].
    exfalso. apply n. now apply M.
  - destruct (in_dec string_dec _ _) as [i|_]; [|reflexivity].
    apply M in i. discriminate.
Qed.

(** Each record sits under its own identifier. *)
Lemma session_ids_are_keys (events : list Event.t) :
  map Session.session_id (generate_session_data events)
  = dict_keys (session_store events).
Proof.
  unfold generate_session_data, dict_values, dict_keys.
  rewrite !map_map. apply map_ext_in. intros [k s] Hin. simpl.
  destruct (set_duration_fixed s) as [-> _].
  apply dict_In_get in Hin; [|apply session_store_NoDup].
  rewrite session_store_get in Hin. now apply summary_key in Hin.
Qed.

(** X1: the derived records carry pairwise distinct session identifiers, and
    these are exactly the session identifiers of the events: every event's
    session is present in exactly one record. *)
Theorem one_record_per_session (events : list Event.t) :
  NoDup (map Session.session_id (generate_session_data events)) /\
  (forall k, In k (map Session.session_id (generate_session_data events))
             <-> In k (map Event.session_id events)).
Proof.
  rewrite session_ids_are_keys. split.
  - apply session_store_NoDup.
  - intros k. rewrite <- dict_mem_keys. apply session_store_mem.
Qed.

(** X2: the records come out in the order in which their session
    identifiers are first met in the event list. *)
Theorem sessions_in_first_seen_order (events : list Event.t) :
  map Session.session_id (generate_session_data events)
  = first_occurrences (map Event.session_id events).
Proof.
  rewrite session_ids_are_keys. apply session_store_keys.
Qed.

(** X3: a record counts the events of its session and, among them, the page
    views: at least one event, and no more page views than events. *)
Theorem session_counts (events : list Event.t) (s : Session.t) :
  In s (generate_session_data events) ->
  let g := group (Session.session_id s) events in
  Session.events_count s = Z.of_nat (List.length g) /\
  Session.page_views s = Z.of_nat (List.length (filter is_page_view g)) /\
  1 <= Session.events_count s /\
  0 <= Session.page_views s <= Session.events_count s.
Proof.
  intros H. destruct (session_of_group _ _ H) as (s0 & e0 & r & G & Hsum & ->).
  cbv zeta. rewrite G.
  destruct (set_duration_fixed s0) as (_ & _ & _ & _ & -> & -> & _).
  destruct (summary_counts _ _ Hsum) as [-> ->].
  pose proof (filter_length_le is_page_view (e0 :: r)).
  cbn [List.length] in *. repeat split; lia.
Qed.

(** A click and a page view of one session: two events, one page view. *)
Lemma session_counts_witness :
  let events := [sample_event "user_a" "sess_1" "click" 10 "desktop";
                 sample_event "user_a" "sess_1" "page_view" 12 "desktop"] in
  let s := set_duration
             (fold_left absorb_event events
                (new_session (sample_event "user_a" "sess_1" "click" 10
                                "desktop"))) in
  let g := group (Session.session_id s) events in
  Session.events_count s = Z.of_nat (List.length g) /\
  Session.page_views s = Z.of_nat (List.length (filter is_page_view g)) /\
  1 <= Session.events_count s /\
  0 <= Session.page_views s <= Session.events_count s.
Proof.
  cbv zeta.
  apply (session_counts
           [sample_event "user_a" "sess_1" "click" 10 "desktop";
            sample_event "user_a" "sess_1" "page_view" 12 "desktop"]).
  simpl. left. reflexivity.
Defined.

Lemma total_dict_set_new (d : sessions_t) (k : string) (v : Session.t) :
  dict_get d k = None ->
  total_events_count (dict_values (dict_set d k v))
  = total_events_count (dict_values d) + Session.events_count v.
Proof.
  unfold dict_values, total_events_count.
  induction d as [|[k0 v0] d IH]; cbn [dict_get dict_set]; [simpl; lia|].
  destruct (String.eqb k0 k); [discriminate|]. intros H.
  cbn [map snd fold_right]. rewrite IH by assumption. lia.
Qed.

Lemma total_dict_set_old (d : sessions_t) (k : string) (s v : Session.t) :
  dict_get d k = Some s ->
  total_events_count (dict_values (dict_set d k v))
  = total_events_count (dict_values d) - Session.events_count s
    + Session.events_count v.
Proof.
  unfold dict_values, total_events_count.
  induction d as [|[k0 v0] d IH]; cbn [dict_get dict_set]; [discriminate|].
  destruct (String.eqb k0 k).
  - intros [= ->]. cbn [map snd fold_right]. lia.
  - intros H. cbn [map snd fold_right]. rewrite IH by assumption. lia.
Qed.

Lemma fold_event_total (d : sessions_t) (e : Event.t) :
  total_events_count (dict_values (fold_event d e))
  = total_events_count (dict_values d) + 1.
Proof.
  unfold fold_event, dict_mem.
  destruct (dict_get d (Event.session_id e)) as [s|] eqn:G.
  - rewrite G. rewrite (total_dict_set_old _ _ s) by assumption.
    destruct (absorb_event_counts s e) as [-> _]. lia.
  - rewrite dict_get_set_same.
    rewrite (total_dict_set_old _ _ (new_session e))
      by apply dict_get_set_same.
    rewrite total_dict_set_new by assumption.
    destruct (absorb_event_counts (new_session e) e) as [-> _]. simpl. lia.
Qed.

Lemma total_set_duration (l : list Session.t) :
  total_events_count (map set_duration l) = total_events_count l.
Proof.
  induction l as [|s l IH]; simpl; [reflexivity|].
  destruct (set_duration_fixed s) as (_ & _ & _ & _ & -> & _).
  now rewrite IH.
Qed.

(** X4: every event is counted in exactly one record: the event counts of
    the derived sessions add up to the number of events. *)
Theorem event_counts_add_up (events : list Event.t) :
  total_events_count (generate_session_data events)
  = Z.of_nat (List.length events).
Proof.
  unfold generate_session_data, session_store. rewrite total_set_duration.
  induction events as [|e l IH] using rev_ind; [reflexivity|].
  rewrite fold_left_app. simpl fold_left.
  rewrite fold_event_total, IH, length_app. simpl. lia.
Qed.

Lemma dict_get_app_absent {V} (d1 d2 : dict V) (k : string) :
  ~ In k (dict_keys d1) -> dict_get (d1 ++ d2) k = dict_get d2 k.
Proof.
  induction d1 as [|[k0 v0] d1 IH]; simpl; [reflexivity|]. intros H.
  destruct (String.eqb_spec k0 k); [tauto|]. apply IH. tauto.
Qed.

Lemma dict_set_app_absent {V} (d1 d2 : dict V) (k : string) (v : V) :
  ~ In k (dict_keys d1) -> dict_set (d1 ++ d2) k v = d1 ++ dict_set d2 k v.
Proof.
  induction d1 as [|[k0 v0] d1 IH]; simpl; [reflexivity|]. intros H.
  destruct (String.eqb_spec k0 k); [tauto|]. rewrite IH; tauto.
Qed.

Lemma fold_event_app_absent (d1 d2 : sessions_t) (e : Event.t) :
  ~ In (Event.session_id e) (dict_keys d1) ->
  fold_event (d1 ++ d2) e = d1 ++ fold_event d2 e.
Proof.
  intros H. unfold fold_event, dict_mem.
  rewrite dict_get_app_absent by assumption.
  destruct (dict_get d2 (Event.session_id e)) as [s|] eqn:G.
  - rewrite dict_get_app_absent, G by assumption.
    now apply dict_set_app_absent.
  - rewrite dict_set_app_absent by assumption.
    rewrite dict_get_app_absent by assumption.
    rewrite dict_get_set_same. now apply dict_set_app_absent.
Qed.

Lemma fold_left_app_absent (l : list Event.t) (d1 d2 : sessions_t) :
  (forall e, In e l -> ~ In (Event.session_id e) (dict_keys d1)) ->
  fold_left fold_event l (d1 ++ d2) = d1 ++ fold_left fold_event l d2.
Proof.
  revert d2. induction l as [|e l IH]; intros d2 H; [reflexivity|].
  simpl. rewrite fold_event_app_absent by (apply H; now left).
  apply IH. intros e' He'. apply H. now right.
Qed.

(** X5: two batches of events that share no session identifier can be
    derived apart: the sessions of the concatenation are the sessions of the
    first batch followed by the sessions of the second. *)
Theorem sessions_of_disjoint_batches (events1 events2 : list Event.t) :
  (forall e1 e2, In e1 events1 -> In e2 events2 ->
                 Event.session_id e1 <> Event.session_id e2) ->
  generate_session_data (events1 ++ events2)
  = generate_session_data events1 ++ generate_session_data events2.
Proof.
  intros H. unfold generate_session_data, dict_values.
  rewrite <- !map_app. do 2 f_equal.
  unfold session_store. rewrite fold_left_app.
  rewrite <- (app_nil_r (fold_left fold_event events1 [])) at 1.
  apply fold_left_app_absent. intros e2 He2 Hin.
  change (fold_left fold_event events1 []) with (session_store events1) in Hin.
  apply dict_mem_keys, session_store_mem, in_map_iff in Hin.
  destruct Hin as (e1 & Heq & He1). exact (H e1 e2 He1 He2 Heq).
Qed.

(** Two sessions of two users, derived together and apart. *)
Lemma sessions_of_disjoint_batches_witness :
  let e1 := sample_event "user_a" "sess_1" "click" 10 "desktop" in
  let e2 := sample_event "user_b" "sess_2" "page_view" 5 "tablet" in
  generate_session_data ([e1] ++ [e2])
  = generate_session_data [e1] ++ generate_session_data [e2].
Proof.
  cbv zeta.
  apply (sessions_of_disjoint_batches
           [sample_event "user_a" "sess_1" "click" 10 "desktop"]
           [sample_event "user_b" "sess_2" "page_view" 5 "tablet"]).
  intros e1 e2 [<-|[]] [<-|[]]. simpl. discriminate.
Defined.

(** X6: a session with a single event starts and ends at that event, has a
    duration of zero seconds (not a missing one) and counts one event. *)
Theorem single_event_session (events : list Event.t) (s : Session.t)
    (e : Event.t) :
  In s (generate_session_data events) ->
  group (Session.session_id s) events = [e] ->
  Session.started_at s = Event.event_timestamp e /\
  Session.ended_at s = Some (Event.event_timestamp e) /\
  Session.duration_seconds s = Some 0 /\
  Session.events_count s = 1 /\
  Session.page_views s = (if is_page_view e then 1 else 0).
Proof.
  intros H G.
  destruct (session_of_group _ _ H) as (s0 & e0 & r & G' & Hsum & ->).
  rewrite G in G'. injection G' as <- <-. injection Hsum as <-.
  unfold set_duration, absorb_event, is_page_view. simpl.
  destruct (String.eqb (Event.event_type e) "page_view"); simpl;
    rewrite Z.sub_diag; auto.
Qed.

(** The session of a single page view. *)
Lemma single_event_session_witness :
  let e := sample_event "user_a" "sess_1" "page_view" 10 "desktop" in
  let s := set_duration (absorb_event (new_session e) e) in
  Session.started_at s = Event.event_timestamp e /\
  Session.ended_at s = Some (Event.event_timestamp e) /\
  Session.duration_seconds s = Some 0 /\
  Session.events_count s = 1 /\
  Session.page_views s = (if is_page_view e then 1 else 0).
Proof.
  cbv zeta.
  apply (single_event_session
           [sample_event "user_a" "sess_1" "page_view" 10 "desktop"]).
  - simpl. left. reflexivity.
  - reflexivity.
Defined.

(** ** Identifiers *)

Lemma is_hex_digit_hex_digit (n : Z) :
  0 <= n < 16 -> is_hex_digit (hex_digit n) = true.
Proof.
  intros H. rewrite <- (Z2Nat.id n) by lia.
  assert (Hk : (Z.to_nat n < 16)%nat) by lia.
  revert Hk. generalize (Z.to_nat n) as k. intros k Hk.
  do 16 (destruct k as [|k]; [reflexivity|]). lia.
Qed.

Lemma uuid4_hex8_Ok w c h c' :
  uuid4_hex8 w c = Ok (h, c') -> is_hex8 h = true.
Proof.
  unfold uuid4_hex8. intros H. run_inv H.
  unfold is_hex8. cbn [hex_digits String.length Nat.eqb andb
                       list_ascii_of_string forallb].
  rewrite !is_hex_digit_hex_digit; [reflexivity|..];
    apply Z.mod_pos_bound; reflexivity.
Qed.

(** X7: the three identifier generators never raise and return their prefix
    followed by eight lowercase hexadecimal digits. *)
Theorem identifier_format w c :
  (exists h c', generate_user_id w c = Ok (("user_" ++ h)%string, c') /\
                is_hex8 h = true) /\
  (exists h c', generate_event_id w c = Ok (("evt_" ++ h)%string, c') /\
                is_hex8 h = true) /\
  (exists h c', generate_session_id w c = Ok (("sess_" ++ h)%string, c') /\
                is_hex8 h = true).
Proof.
  destruct (succeeds_uuid4_hex8 w c) as (h & c' & H).
  pose proof (uuid4_hex8_Ok _ _ _ _ H) as Hh.
  unfold generate_user_id, generate_event_id, generate_session_id, bind.
  rewrite H. repeat split; exists h, c'; auto.
Qed.

(** ** Events of [generate_event_data], continued *)

Lemma generate_event_fields (user_id session_id : string) (t : datetime)
    w c e c' :
  generate_event user_id session_id t w c = Ok (e, c') ->
  In (Event.device_type e) DEVICE_TYPES /\
  In (Event.platform e) PLATFORMS /\
  (exists h, Event.event_id e = ("evt_" ++ h)%string /\ is_hex8 h = true) /\
  (exists n, Event.created_at e = wall_clock w n).
Proof.
  unfold generate_event, choices. intros H. run_inv H.
  cbn [Event.device_type Event.platform Event.event_id Event.created_at].
  repeat split.
  - eapply choice_Ok; eassumption.
  - eapply choice_Ok; eassumption.
  - unfold generate_event_id in R2. run_inv R2.
    eexists. split; [reflexivity|]. eapply uuid4_hex8_Ok; eassumption.
  - unfold now in R8. inversion R8. eauto.
Qed.

Lemma generate_day_fields cfg start_date user_id created day_offset w c out c' :
  generate_day cfg start_date user_id created day_offset w c = Ok (out, c') ->
  Forall (fun e =>
            In (Event.device_type e) DEVICE_TYPES /\
            In (Event.platform e) PLATFORMS /\
            (exists h, Event.event_id e = ("evt_" ++ h)%string /\
                       is_hex8 h = true) /\
            (exists h, Event.session_id e = ("sess_" ++ h)%string /\
                       is_hex8 h = true) /\
            start_date + timedelta day_offset 8 0 <= Event.event_timestamp e
              <= start_date + timedelta day_offset 20 179) out /\
  day_block out.
Proof.
  unfold generate_day.
  destruct (_ <? _).
  - intros H. run_inv H. split; [constructor|].
    exists ""%string, ""%string, 0. constructor.
  - intros H. run_inv H.
    apply randint_Ok in R1. apply randint_Ok in R2.
    unfold generate_session_id in R0. run_inv R0.
    apply uuid4_hex8_Ok in R3.
    assert (Hev : Forall (fun e =>
              (Event.user_id e = user_id /\
               Event.session_id e = ("sess_" ++ a3)%string /\
               (exists m, 0 <= m <= 120 /\
                  Event.event_timestamp e =
                    start_date + timedelta day_offset 0 0 + timedelta 0 a1 a2
                    + timedelta 0 0 m)) /\
              In (Event.device_type e) DEVICE_TYPES /\
              In (Event.platform e) PLATFORMS /\
              (exists h, Event.event_id e = ("evt_" ++ h)%string /\
                         is_hex8 h = true)) out).
    { eapply for_each_Forall; [|exact H].
      intros x ? o ? _ Hb. run_inv Hb. constructor; [|constructor].
      pose proof (generate_event_Ok _ _ _ _ _ _ _ R0) as (A & B & C & _).
      pose proof (generate_event_fields _ _ _ _ _ _ _ R0) as (D & E & F & _).
      auto 10. }
    split.
    + eapply Forall_impl; [|exact Hev].
      intros e ((Hu & Hs & m & Hm & Hts) & Hd & Hp & Hid).
      repeat split; auto.
      * exists a3. auto.
      * rewrite Hts. unfold timedelta, usec_per_day, usec_per_hour,
          usec_per_minute, usec_per_second. lia.
      * rewrite Hts. unfold timedelta, usec_per_day, usec_per_hour,
          usec_per_minute, usec_per_second. lia.
    + exists ("sess_" ++ a3)%string, user_id,
        (start_date + timedelta day_offset 0 0 + timedelta 0 a1 a2).
      eapply Forall_impl; [|exact Hev].
      intros e ((Hu & Hs & m & Hm & Hts) & _).
      repeat split; auto; rewrite Hts;
        unfold timedelta, usec_per_day, usec_per_hour, usec_per_minute,
          usec_per_second; lia.
Qed.

Lemma generate_event_data_fields cfg users w c events c' :
  generate_event_data cfg users w c = Ok (events, c') ->
  Forall (fun e =>
            In (Event.user_id e) (map User.user_id users) /\
            In (Event.event_type e) EVENT_TYPES /\
            In (Event.device_type e) DEVICE_TYPES /\
            In (Event.platform e) PLATFORMS /\
            (exists h, Event.event_id e = ("evt_" ++ h)%string /\
                       is_hex8 h = true) /\
            (exists h, Event.session_id e = ("sess_" ++ h)%string /\
                       is_hex8 h = true)) events.
Proof.
  intros H.
  pose proof (generate_event_data_Ok _ _ _ _ _ _ H) as H1.
  unfold generate_event_data in H. run_inv H.
  assert (H2 : Forall (fun e =>
            In (Event.device_type e) DEVICE_TYPES /\
            In (Event.platform e) PLATFORMS /\
            (exists h, Event.event_id e = ("evt_" ++ h)%string /\
                       is_hex8 h = true) /\
            (exists h, Event.session_id e = ("sess_" ++ h)%string /\
                       is_hex8 h = true)) events).
  { eapply for_each_Forall; [|exact H].
    intros u ? o ? _ Ho. cbv beta in Ho.
    eapply for_each_Forall; [|exact Ho].
    intros k ? o' ? _ Hd. apply generate_day_fields in Hd.
    destruct Hd as [Hd _]. eapply Forall_impl; [|exact Hd].
    intros e (A & B & C & D & _). auto. }
  rewrite Forall_forall in *. intros e He.
  destruct (H1 e He) as ((u & Hu & Hid & _) & Hty & _).
  destruct (H2 e He) as (A & B & C & D).
  repeat split; auto.
  rewrite <- Hid. now apply in_map.
Qed.

(** X8: every generated event belongs to a user of the input list, and its
    type, device and platform are drawn from the module's enumerations; its
    identifiers are "evt_" and "sess_" followed by eight hexadecimal
    digits.  With no users there are no events. *)
Theorem event_fields cfg users w c events c' :
  generate_event_data cfg users w c = Ok (events, c') ->
  (users = [] -> events = []) /\
  Forall (fun e =>
            In (Event.user_id e) (map User.user_id users) /\
            In (Event.event_type e) EVENT_TYPES /\
            In (Event.device_type e) DEVICE_TYPES /\
            In (Event.platform e) PLATFORMS /\
            (exists h, Event.event_id e = ("evt_" ++ h)%string /\
                       is_hex8 h = true) /\
            (exists h, Event.session_id e = ("sess_" ++ h)%string /\
                       is_hex8 h = true)) events.
Proof.
  intros H. split.
  - intros ->. unfold generate_event_data in H. run_inv H.
    cbn [for_each] in H. now run_inv H.
  - eapply generate_event_data_fields; eassumption.
Qed.

(** One user over two days. *)
Lemma event_fields_witness :
  exists events c',
    generate_event_data (mk_config 1 2 (1, 2)) (sample_users 1)
      (noon_world []) start = Ok (events, c') /\
    ((sample_users 1 = [] -> events = []) /\
     Forall (fun e =>
               In (Event.user_id e) (map User.user_id (sample_users 1)) /\
               In (Event.event_type e) EVENT_TYPES /\
               In (Event.device_type e) DEVICE_TYPES /\
               In (Event.platform e) PLATFORMS /\
               (exists h, Event.event_id e = ("evt_" ++ h)%string /\
                          is_hex8 h = true) /\
               (exists h, Event.session_id e = ("sess_" ++ h)%string /\
                          is_hex8 h = true)) events).
Proof.
  eexists. eexists. split; [vm_compute; reflexivity|].
  eapply (event_fields (mk_config 1 2 (1, 2)) (sample_users 1)
            (noon_world []) start).
  vm_compute. reflexivity.
Defined.

Lemma now_Ok w c t c' : now w c = Ok (t, c') -> t = wall_clock w (clock_pos c).
Proof. unfold now. now intros [= <- _]. Qed.

(** X9: every event is dated in the past of the clock reading [t] taken
    when [generate_event_data] starts: no earlier than eight hours after
    [t - NUM_DAYS days] and no later than 61 minutes before [t]. *)
Theorem event_time_window cfg users w c events c' :
  generate_event_data cfg users w c = Ok (events, c') ->
  let t := wall_clock w (clock_pos c) in
  Forall (fun e =>
            t - timedelta (NUM_DAYS cfg) 0 0 + timedelta 0 8 0
              <= Event.event_timestamp e
              <= t - timedelta 0 0 61) events.
Proof.
  intros H. unfold generate_event_data in H. run_inv H.
  apply now_Ok in R. subst a. cbv zeta.
  eapply for_each_Forall; [|exact H].
  intros u ? o ? _ Ho. cbv beta in Ho.
  eapply for_each_Forall; [|exact Ho].
  intros k ? o' ? Hk Hd. apply range_In in Hk.
  apply generate_day_fields in Hd. destruct Hd as [Hd _].
  eapply Forall_impl; [|exact Hd].
  intros e (_ & _ & _ & _ & Hts). revert Hts.
  unfold timedelta, usec_per_day, usec_per_hour, usec_per_minute,
    usec_per_second. lia.
Qed.

(** One user over two days, at noon of day 19000. *)
Lemma event_time_window_witness :
  exists events c',
    generate_event_data (mk_config 1 2 (1, 2)) (sample_users 1)
      (noon_world []) start = Ok (events, c') /\
    Forall (fun e =>
              wall_clock (noon_world []) (clock_pos start)
                - timedelta 2 0 0 + timedelta 0 8 0
                <= Event.event_timestamp e
                <= wall_clock (noon_world []) (clock_pos start)
                   - timedelta 0 0 61) events.
Proof.
  eexists. eexists. split; [vm_compute; reflexivity|].
  eapply (event_time_window (mk_config 1 2 (1, 2)) (sample_users 1)
            (noon_world []) start).
  vm_compute. reflexivity.
Defined.




Lemma for_each_length_ge {A B} (body : A -> gen (list B)) w (m : Z)
    (l : list A) :
  (forall x c o c', In x l -> body x w c = Ok (o, c') ->
                    m <= Z.of_nat (List.length o)) ->
  forall c out c', for_each l body w c = Ok (out, c') ->
                   Z.of_nat (List.length l) * m <= Z.of_nat (List.length out).
Proof.
  induction l as [|x l IH]; intros Hb c out c' H.
  - cbn [for_each] in H. run_inv H. simpl. lia.
  - cbn [for_each] in H. run_inv H. rewrite length_app.
    assert (m <= Z.of_nat (List.length a))
      by (eapply Hb; [now left|eassumption]).
    assert (Z.of_nat (List.length l) * m <= Z.of_nat (List.length a0)).
    { eapply IH; [|eassumption]. intros; eapply Hb; [right|]; eassumption. }
    cbn [List.length]. lia.
Qed.

(** X11: when every user was created on or before the first day of the
    span, no day is skipped, and a run yields at least U * D * min events. *)
Theorem event_count_lower_bound cfg users w c events c' :
  0 <= fst (EVENTS_PER_USER_PER_DAY cfg) ->
  (forall u, In u users ->
     date (User.created_at u)
       <= date (wall_clock w (clock_pos c) - timedelta (NUM_DAYS cfg) 0 0)) ->
  generate_event_data cfg users w c = Ok (events, c') ->
  Z.of_nat (List.length users) * NUM_DAYS cfg
    * fst (EVENTS_PER_USER_PER_DAY cfg)
  <= Z.of_nat (List.length events).
Proof.
  intros Hmin Hold H. unfold generate_event_data in H. run_inv H.
  apply now_Ok in R. subst a.
  set (lo := fst (EVENTS_PER_USER_PER_DAY cfg)) in *.
  assert (G : Z.of_nat (List.length users) * (Z.of_nat (Z.to_nat (NUM_DAYS cfg)) * lo)
              <= Z.of_nat (List.length events)).
  { eapply for_each_length_ge; [|exact H].
    intros u ? o ? Hu Ho. cbv beta in Ho.
    rewrite <- range_length.
    eapply for_each_length_ge; [|exact Ho].
    intros k ? o' ? Hk Hd. apply range_In in Hk.
    unfold generate_day in Hd.
    destruct (Z.ltb_spec
                (date (wall_clock w (clock_pos c) - timedelta (NUM_DAYS cfg) 0 0
                       + timedelta k 0 0))
                (date (User.created_at u))) as [Hskip|_].
    - exfalso. specialize (Hold u Hu).
      assert (date (wall_clock w (clock_pos c) - timedelta (NUM_DAYS cfg) 0 0)
              <= date (wall_clock w (clock_pos c)
                       - timedelta (NUM_DAYS cfg) 0 0 + timedelta k 0 0)).
      { apply date_le.
        pose proof (timedelta_nonneg k 0 0). lia. }
      lia.
    - run_inv Hd. apply randint_Ok in R.
      assert (Hlen : List.length o' = (List.length (range a) * 1)%nat).
      { eapply for_each_length; [|exact Hd].
        intros x ? o1 ? Hb. run_inv Hb. reflexivity. }
      rewrite Hlen, range_length. fold lo in R. lia. }
  destruct (Z.le_gt_cases 0 (NUM_DAYS cfg)).
  - rewrite Z2Nat.id in G by assumption. lia.
  - assert (Z.of_nat (List.length users) * NUM_DAYS cfg * lo <= 0) by nia.
    lia.
Qed.

(** One user created long ago, two days, one or two events a day. *)
Lemma event_count_lower_bound_witness :
  exists events c',
    generate_event_data (mk_config 1 2 (1, 2)) (sample_users 1)
      (noon_world []) start = Ok (events, c') /\
    Z.of_nat (List.length (sample_users 1)) * 2 * 1
    <= Z.of_nat (List.length events).
Proof.
  eexists. eexists. split; [vm_compute; reflexivity|].
  eapply (event_count_lower_bound (mk_config 1 2 (1, 2)) (sample_users 1)
            (noon_world []) start).
  - simpl. lia.
  - intros u [<-|[]]. vm_compute. discriminate.
  - vm_compute. reflexivity.
Defined.

(** ** Users of [generate_user_data], continued *)

(** X12: [generate_user_data] never raises and returns exactly [NUM_USERS]
    users, none when the count is zero or negative. *)
Theorem user_count cfg w c :
  exists users c',
    generate_user_data cfg w c = Ok (users, c') /\
    List.length users = Z.to_nat (NUM_USERS cfg).
Proof.
  destruct (succeeds_generate_user_data cfg w c) as (users & c' & H).
  exists users, c'. split; [assumption|].
  unfold generate_user_data in H.
  assert (Hlen : List.length users
                 = (List.length (range (NUM_USERS cfg)) * 1)%nat).
  { eapply for_each_length; [|exact H].
    intros x ? o ? Hb. run_inv Hb. reflexivity. }
  rewrite Hlen, range_length. lia.
Qed.

Lemma generate_user_fields w c u c' :
  generate_user w c = Ok (u, c') ->
  In (User.first_name u) first_names /\
  In (User.last_name u) last_names /\
  In (User.country u) COUNTRIES /\
  In (User.subscription_tier u) SUBSCRIPTION_TIERS /\
  (exists domain,
      In domain ["gmail.com"; "yahoo.com"; "hotmail.com"; "outlook.com";
                 "company.com"]%string /\
      User.email u = (lower (User.first_name u) ++ "."
                      ++ lower (User.last_name u) ++ "@" ++ domain)%string) /\
  (exists h, User.user_id u = ("user_" ++ h)%string /\ is_hex8 h = true) /\
  (exists source campaign code,
      User.metadata u = [("source", JStr source); ("campaign", JStr campaign);
                         ("referral_code", code)]%string /\
      (code = JNull \/
       exists n, 1000 <= n <= 9999 /\ code = JStr ("REF" ++ str_int n))).
Proof.
  unfold generate_user, choices. intros H. run_inv H.
  cbn [User.first_name User.last_name User.country User.subscription_tier
       User.email User.user_id User.metadata].
  repeat split.
  - eapply choice_Ok; eassumption.
  - eapply choice_Ok; eassumption.
  - eapply choice_Ok; eassumption.
  - eapply choice_Ok; eassumption.
  - unfold generate_email in R4. run_inv R4. eexists. split; [|reflexivity].
    eapply choice_Ok; eassumption.
  - unfold generate_user_id in R3. run_inv R3.
    eexists. split; [reflexivity|]. eapply uuid4_hex8_Ok; eassumption.
  - do 3 eexists. split; [reflexivity|].
    destruct a11.
    + run_inv R12. right. eexists. split; [|reflexivity].
      eapply randint_Ok; eassumption.
    + run_inv R12. now left.
Qed.

(** X13: every generated user draws its names, country and tier from the
    module's pools; the email is the lowercased names joined by a dot at one
    of five domains, the identifier "user_" and eight hexadecimal digits, and
    the metadata holds source, campaign and a referral code that is null or
    "REF" and a number of 1000..9999. *)
Theorem user_fields cfg w c users c' :
  generate_user_data cfg w c = Ok (users, c') ->
  Forall (fun u =>
    In (User.first_name u) first_names /\
    In (User.last_name u) last_names /\
    In (User.country u) COUNTRIES /\
    In (User.subscription_tier u) SUBSCRIPTION_TIERS /\
    (exists domain,
        In domain ["gmail.com"; "yahoo.com"; "hotmail.com"; "outlook.com";
                   "company.com"]%string /\
        User.email u = (lower (User.first_name u) ++ "."
                        ++ lower (User.last_name u) ++ "@" ++ domain)%string) /\
    (exists h, User.user_id u = ("user_" ++ h)%string /\ is_hex8 h = true) /\
    (exists source campaign code,
        User.metadata u = [("source", JStr source); ("campaign", JStr campaign);
                           ("referral_code", code)]%string /\
        (code = JNull \/
         exists n, 1000 <= n <= 9999 /\ code = JStr ("REF" ++ str_int n))))
    users.
Proof.
  unfold generate_user_data. apply for_each_Forall.
  intros x ? o ? _ H. run_inv H. constructor; [|constructor].
  eapply generate_user_fields; eassumption.
Qed.

(** Two users generated at noon. *)
Lemma user_fields_witness :
  exists users c',
    generate_user_data (mk_config 2 30 (1, 20)) (noon_world []) start
      = Ok (users, c') /\
    Forall (fun u =>
      In (User.first_name u) first_names /\
      In (User.last_name u) last_names /\
      In (User.country u) COUNTRIES /\
      In (User.subscription_tier u) SUBSCRIPTION_TIERS /\
      (exists domain,
          In domain ["gmail.com"; "yahoo.com"; "hotmail.com"; "outlook.com";
                     "company.com"]%string /\
          User.email u = (lower (User.first_name u) ++ "."
                          ++ lower (User.last_name u) ++ "@" ++ domain)%string) /\
      (exists h, User.user_id u = ("user_" ++ h)%string /\ is_hex8 h = true) /\
      (exists source campaign code,
          User.metadata u = [("source", JStr source);
                             ("campaign", JStr campaign);
                             ("referral_code", code)]%string /\
          (code = JNull \/
           exists n, 1000 <= n <= 9999 /\ code = JStr ("REF" ++ str_int n))))
      users.
Proof.
  eexists. eexists. split; [vm_compute; reflexivity|].
  eapply (user_fields (mk_config 2 30 (1, 20)) (noon_world []) start).
  vm_compute. reflexivity.
Defined.

(** X14: a user is created a whole number of days, 1 to 365, before a
    reading of the clock, and last updated a whole number of days, 0 to 30,
    after its creation. *)
Theorem user_timestamps cfg w c users c' :
  generate_user_data cfg w c = Ok (users, c') ->
  Forall (fun u =>
            exists n d du,
              1 <= d <= 365 /\ 0 <= du <= 30 /\
              User.created_at u = wall_clock w n - d * usec_per_day /\
              User.updated_at u = User.created_at u + du * usec_per_day)
         users.
Proof.
  unfold generate_user_data. apply for_each_Forall.
  intros x ? o ? _ H. run_inv H. constructor; [|constructor].
  apply generate_user_Ok in R.
  destruct R as (n & d & du & Hd & Hdu & Hc & Hu).
  exists n, d, du. rewrite Hc in *. rewrite Hu.
  unfold timedelta. repeat split; lia.
Qed.

(** Two users generated at noon. *)
Lemma user_timestamps_witness :
  exists users c',
    generate_user_data (mk_config 2 30 (1, 20)) (noon_world []) start
      = Ok (users, c') /\
    Forall (fun u =>
              exists n d du,
                1 <= d <= 365 /\ 0 <= du <= 30 /\
                User.created_at u
                  = wall_clock (noon_world []) n - d * usec_per_day /\
                User.updated_at u = User.created_at u + du * usec_per_day)
           users.
Proof.
  eexists. eexists. split; [vm_compute; reflexivity|].
  eapply (user_timestamps (mk_config 2 30 (1, 20)) (noon_world []) start).
  vm_compute. reflexivity.
Defined.

(** ** [main]: the three datasets together *)

(** X15: in the datasets of one run of [main], every event and every session
    names a generated user, and every session carries the identifier of one
    of the events and a device and a platform of the enumerations. *)
Theorem main_references cfg w c users events sessions c' :
  main cfg w c = Ok ((users, events, sessions), c') ->
  Forall (fun e => In (Event.user_id e) (map User.user_id users)) events /\
  Forall (fun s =>
            In (Session.user_id s) (map User.user_id users) /\
            In (Session.session_id s) (map Event.session_id events) /\
            In (Session.device_type s) DEVICE_TYPES /\
            In (Session.platform s) PLATFORMS) sessions.
Proof.
  unfold main. intros H. run_inv H. injection H as -> -> ->.
  pose proof (generate_event_data_fields _ _ _ _ _ _ R0) as F.
  rewrite Forall_forall in F. split.
  - apply Forall_forall. intros e He. now destruct (F e He).
  - apply Forall_forall. intros s Hs.
    destruct (session_of_group _ _ Hs) as (s0 & e0 & r & G & Hsum & ->).
    destruct (set_duration_fixed s0)
      as (Hid & Hu & _ & _ & _ & _ & Hd & Hp).
    rewrite Hid in G. rewrite Hid, Hu, Hd, Hp.
    assert (In e0 (group (Session.session_id s0) a0)) as Hin
        by (rewrite G; now left).
    apply group_In in Hin. destruct Hin as [He0 Hk].
    apply summary_first in Hsum. destruct Hsum as (_ & -> & _ & -> & -> & _).
    destruct (F e0 He0) as (A & _ & B & C & _).
    repeat split; auto. rewrite <- Hk. now apply in_map.
Qed.

(** One user, two days, run at noon. *)
Lemma main_references_witness :
  exists users events sessions c',
    main (mk_config 1 2 (1, 2)) (noon_world []) start
      = Ok ((users, events, sessions), c') /\
    (Forall (fun e => In (Event.user_id e) (map User.user_id users)) events /\
     Forall (fun s =>
               In (Session.user_id s) (map User.user_id users) /\
               In (Session.session_id s) (map Event.session_id events) /\
               In (Session.device_type s) DEVICE_TYPES /\
               In (Session.platform s) PLATFORMS) sessions).
Proof.
  eexists. eexists. eexists. eexists. split; [vm_compute; reflexivity|].
  eapply (main_references (mk_config 1 2 (1, 2)) (noon_world []) start).
  vm_compute. reflexivity.
Defined.

(** ** [simple_data_generator.py], continued *)

Lemma bind_Raise {A B} (m : gen A) (k : A -> gen B) w c a c1 e :
  m w c = Ok (a, c1) -> k a w c1 = Raise e -> bind m k w c = Raise e.
Proof. intros Hm Hk. unfold bind. now rewrite Hm. Qed.

Lemma succeeds_simple_generate_users (num_users : Z) :
  succeeds (Simple.generate_users num_users).
Proof.
  unfold Simple.generate_users, Simple.generate_user, Simple.countries,
    Simple.subscription_tiers.
  repeat succeeds_step.
Qed.

Lemma simple_generate_users_length num_users w c users c' :
  Simple.generate_users num_users w c = Ok (users, c') ->
  List.length users = Z.to_nat num_users.
Proof.
  unfold Simple.generate_users. intros H.
  assert (Hlen : List.length users = (List.length (range num_users) * 1)%nat).
  { eapply for_each_length; [|exact H].
    intros x ? o ? Hb. run_inv Hb. reflexivity. }
  rewrite Hlen, range_length. lia.
Qed.

Lemma simple_generate_events_length num_events num_days users w c events c' :
  Simple.generate_events num_events num_days users w c = Ok (events, c') ->
  List.length events = Z.to_nat num_events.
Proof.
  unfold Simple.generate_events. intros H.
  assert (Hlen : List.length events
                 = (List.length (range num_events) * 1)%nat).
  { eapply for_each_length; [|exact H].
    intros x ? o ? Hb. run_inv Hb. reflexivity. }
  rewrite Hlen, range_length. lia.
Qed.

Lemma simple_generate_event_Ok num_days user_ids i w c e c' :
  Simple.generate_event num_days user_ids i w c = Ok (e, c') ->
  In (Event.session_id e) simple_session_ids /\
  (exists n, wall_clock w n - timedelta num_days 23 59
               <= Event.event_timestamp e <= wall_clock w n).
Proof.
  unfold Simple.generate_event. intros H. run_inv H.
  cbn [Event.session_id Event.event_timestamp].
  apply randint_Ok in R2. apply randint_Ok in R3. apply randint_Ok in R4.
  apply randint_Ok in R6. apply now_Ok in R1. subst a1. split.
  - unfold simple_session_ids.
    apply (in_map (fun s => ("sess_" ++ str_int_pad 3 s)%string)).
    apply in_map_iff. exists (Z.to_nat a6). split; [lia|].
    apply in_seq. lia.
  - exists (clock_pos c1).
    unfold timedelta, usec_per_day, usec_per_hour, usec_per_minute,
      usec_per_second. lia.
Qed.

Lemma simple_generate_events_sessions num_events num_days users w c events c' :
  Simple.generate_events num_events num_days users w c = Ok (events, c') ->
  Forall (fun e =>
            In (Event.session_id e) simple_session_ids /\
            (exists n, wall_clock w n - timedelta num_days 23 59
                         <= Event.event_timestamp e <= wall_clock w n))
         events.
Proof.
  unfold Simple.generate_events. apply for_each_Forall.
  intros i ? o ? _ H. run_inv H. constructor; [|constructor].
  eapply simple_generate_event_Ok; eassumption.
Qed.

(** X16: with no users [simple_data_generator.py] raises the [IndexError] of
    [random.choice] at its first event, and with a negative day span the
    [ValueError] of [random.randint]; in both cases after the users were
    generated and before any event exists. *)
Theorem simple_generator_errors num_users num_events num_days w c :
  0 < num_events ->
  (num_users <= 0 ->
   Simple.generate_sample_data num_users num_events num_days w c
   = Raise IndexError) /\
  (0 < num_users -> num_days < 0 ->
   Simple.generate_sample_data num_users num_events num_days w c
   = Raise ValueError).
Proof.
  intros He. destruct (range_first _ He) as [l Hl]. split.
  - intros Hu. unfold Simple.generate_sample_data, Simple.generate_users.
    rewrite (range_nonpos _ Hu). cbn [for_each].
    eapply bind_Raise; [reflexivity|].
    unfold Simple.generate_events. rewrite Hl. reflexivity.
  - intros Hu Hd. unfold Simple.generate_sample_data.
    destruct (succeeds_simple_generate_users num_users w c)
      as (users & c1 & Husers).
    eapply bind_Raise; [exact Husers|].
    pose proof (simple_generate_users_length _ _ _ _ _ Husers) as Hlen.
    destruct users as [|u users]; [simpl in Hlen; lia|].
    unfold Simple.generate_events. rewrite Hl. cbn [for_each].
    unfold Simple.generate_event.
    destruct (succeeds_choice (map User.user_id (u :: users))
                ltac:(discriminate) w c1) as (uid & c2 & H1).
    destruct (succeeds_choice Simple.event_types ltac:(discriminate) w c2)
      as (ty & c3 & H2).
    unfold bind. rewrite H1, H2. cbn [now].
    now rewrite randint_empty.
Qed.

(** No users, and a span of minus one day. *)
Lemma simple_generator_errors_witness :
  Simple.generate_sample_data 0 1000 30 (noon_world []) start
  = Raise IndexError /\
  Simple.generate_sample_data 100 1000 (-1) (noon_world []) start
  = Raise ValueError.
Proof.
  split.
  - apply (simple_generator_errors 0 1000 30 (noon_world []) start); lia.
  - apply (simple_generator_errors 100 1000 (-1) (noon_world []) start); lia.
Defined.

(** X17: a completed run of [simple_data_generator.py] returns exactly
    [num_users] users and [num_events] events, every event naming one of the
    users, and at most fifty sessions however many events there are. *)
Theorem simple_generator_counts num_users num_events num_days w c
    users events sessions c' :
  Simple.generate_sample_data num_users num_events num_days w c
    = Ok ((users, events, sessions), c') ->
  List.length users = Z.to_nat num_users /\
  List.length events = Z.to_nat num_events /\
  (List.length sessions <= 50)%nat /\
  Forall (fun e => In (Event.user_id e) (map User.user_id users)) events.
Proof.
  unfold Simple.generate_sample_data. intros H. run_inv H.
  injection H as -> -> ->.
  split; [|split; [|split]].
  - eapply simple_generate_users_length; eassumption.
  - eapply simple_generate_events_length; eassumption.
  - pose proof (simple_generate_events_sessions _ _ _ _ _ _ _ R0) as F.
    rewrite Forall_forall in F.
    rewrite <- (length_map Session.session_id), session_ids_are_keys.
    change 50%nat with (List.length simple_session_ids).
    apply NoDup_incl_length; [apply session_store_NoDup|].
    intros k Hk. apply dict_mem_keys, session_store_mem, in_map_iff in Hk.
    destruct Hk as (e & <- & He). now apply F.
  - pose proof (simple_generate_events_Ok _ _ _ _ _ _ _ R0) as F.
    eapply Forall_impl; [|exact F]. now intros e (He & _).
Qed.

(** Four users and sixty events over thirty days, run at noon. *)
Lemma simple_generator_counts_witness :
  exists users events sessions c',
    Simple.generate_sample_data 4 60 30 (noon_world []) start
      = Ok ((users, events, sessions), c') /\
    (List.length users = Z.to_nat 4 /\
     List.length events = Z.to_nat 60 /\
     (List.length sessions <= 50)%nat /\
     Forall (fun e => In (Event.user_id e) (map User.user_id users)) events).
Proof.
  eexists. eexists. eexists. eexists. split; [vm_compute; reflexivity|].
  eapply (simple_generator_counts 4 60 30 (noon_world []) start).
  vm_compute. reflexivity.
Defined.

(** X18: an event of [simple_data_generator.py] is dated at or before the
    clock reading taken for it, by at most [num_days] days, 23 hours and 59
    minutes: never in the future. *)
Theorem simple_event_window num_events num_days users w c events c' :
  Simple.generate_events num_events num_days users w c = Ok (events, c') ->
  Forall (fun e =>
            exists n, wall_clock w n - timedelta num_days 23 59
                        <= Event.event_timestamp e <= wall_clock w n)
         events.
Proof.
  intros H. apply simple_generate_events_sessions in H.
  eapply Forall_impl; [|exact H]. now intros e (_ & He).
Qed.

(** Two events for one user, at noon. *)
Lemma simple_event_window_witness :
  exists events c',
    Simple.generate_events 2 30 (sample_users 1) (noon_world []) start
      = Ok (events, c') /\
    Forall (fun e =>
              exists n, wall_clock (noon_world []) n - timedelta 30 23 59
                          <= Event.event_timestamp e
                          <= wall_clock (noon_world []) n)
           events.
Proof.
  eexists. eexists. split; [vm_compute; reflexivity|].
  eapply (simple_event_window 2 30 (sample_users 1) (noon_world []) start).
  vm_compute. reflexivity.
Defined.

(** ** The clock through a run *)

Lemma advances_ret {A} (a : A) : advances (ret a).
Proof. intros w c b c' H. apply ret_Ok in H. destruct H as [_ ->]. lia. Qed.

Lemma advances_bind {A B} (m : gen A) (k : A -> gen B) :
  advances m -> (forall a, advances (k a)) -> advances (bind m k).
Proof.
  intros Hm Hk w c b c' H. apply bind_Ok in H.
  destruct H as (a & c1 & H1 & H2).
  specialize (Hm _ _ _ _ H1). specialize (Hk _ _ _ _ _ H2). lia.
Qed.

Lemma advances_raise {A} (e : pyerror) : advances (@raise A e).
Proof. intros w c a c' H. discriminate. Qed.

Lemma advances_next_random : advances next_random.
Proof. intros w c a c' H. unfold next_random in H. inversion H. simpl. lia. Qed.

Lemma advances_next_entropy : advances next_entropy.
Proof. intros w c a c' H. unfold next_entropy in H. inversion H. simpl. lia. Qed.

Lemma advances_now : advances now.
Proof. intros w c a c' H. unfold now in H. inversion H. simpl. lia. Qed.

Lemma advances_for_each {A B} (l : list A) (body : A -> gen (list B)) :
  (forall x, advances (body x)) -> advances (for_each l body).
Proof.
  intros Hb. induction l as [|x l IH]; cbn [for_each].
  - apply advances_ret.
  - apply advances_bind; [apply Hb|intros].
    apply advances_bind; [apply IH|intros; apply advances_ret].
Qed.

Ltac advances_step :=
  lazymatch goal with
  | |- advances (ret _) => apply advances_ret
  | |- advances (raise _) => apply advances_raise
  | |- advances next_random => apply advances_next_random
  | |- advances next_entropy => apply advances_next_entropy
  | |- advances now => apply advances_now
  | |- advances (for_each _ _) => apply advances_for_each; intros
  | |- advances (bind _ _) => apply advances_bind; [|intros]
  | |- advances (if ?b then _ else _) => destruct b
  | |- advances (match ?l with [] => _ | _ :: _ => _ end) => destruct l
  | |- advances (randint _ _) => unfold randint
  | |- advances (choice _) => unfold choice
  | |- advances (choices _) => unfold choices
  | |- advances uuid4_hex8 => unfold uuid4_hex8
  | |- advances uniform_10_500 => unfold uniform_10_500
  | |- advances random_below_02 => unfold random_below_02
  end.

Lemma advances_generate_user : advances generate_user.
Proof.
  unfold generate_user, generate_user_id, generate_email.
  repeat advances_step.
Qed.

Lemma advances_generate_event user_id session_id t :
  advances (generate_event user_id session_id t).
Proof.
  unfold generate_event, generate_event_id, event_metadata.
  repeat advances_step.
Qed.

Lemma advances_generate_day cfg start_date user_id created k :
  advances (generate_day cfg start_date user_id created k).
Proof.
  unfold generate_day, generate_session_id.
  repeat first [advances_step | apply advances_generate_event].
Qed.

(** A property of the appended records that may depend on the cursors
    between which a body runs, and that widening the two cursors keeps. *)
Lemma for_each_Forall_between {A B} (P : cursor -> cursor -> B -> Prop)
    (body : A -> gen (list B)) w (l : list A) :
  (forall c1 c2 c3 c4 b,
      (clock_pos c1 <= clock_pos c2)%N -> (clock_pos c3 <= clock_pos c4)%N ->
      P c2 c3 b -> P c1 c4 b) ->
  (forall x, advances (body x)) ->
  (forall x c o c', In x l -> body x w c = Ok (o, c') -> Forall (P c c') o) ->
  forall c out c', for_each l body w c = Ok (out, c') -> Forall (P c c') out.
Proof.
  intros Hwiden Hadv. induction l as [|x l IH]; intros Hb c out c' H.
  - cbn [for_each] in H. run_inv H. constructor.
  - cbn [for_each] in H. run_inv H.
    pose proof (Hadv _ _ _ _ _ R) as A1.
    pose proof (advances_for_each l body Hadv _ _ _ _ R0) as A2.
    apply Forall_app. split.
    + eapply Forall_impl; [|eapply Hb; [now left|exact R]].
      intros b. apply Hwiden; lia.
    + eapply Forall_impl; [|eapply IH; [|exact R0]].
      * intros b. apply Hwiden; lia.
      * intros; eapply Hb; [right|]; eassumption.
Qed.

Lemma generate_user_reading w c u c' :
  generate_user w c = Ok (u, c') ->
  exists n d, (clock_pos c <= n < clock_pos c')%N /\ 1 <= d <= 365 /\
              User.created_at u = wall_clock w n - d * usec_per_day.
Proof.
  unfold generate_user. intros H.
  apply bind_Ok in H. destruct H as (fn & c1 & R & H).
  apply bind_Ok in H. destruct H as (ln & c2 & R0 & H).
  apply bind_Ok in H. destruct H as (t & c3 & R1 & H).
  apply bind_Ok in H. destruct H as (d & c4 & R2 & H).
  assert (Ha : advances (choice first_names)) by repeat advances_step.
  assert (Hb : advances (choice last_names)) by repeat advances_step.
  assert (Hd : advances (randint 1 365)) by repeat advances_step.
  specialize (Ha _ _ _ _ R). specialize (Hb _ _ _ _ R0).
  specialize (Hd _ _ _ _ R2).
  assert (Hrest : (clock_pos c4 <= clock_pos c')%N).
  { match type of H with
    | ?m w c4 = _ =>
        assert (A : advances m)
          by (unfold generate_user_id, generate_email; repeat advances_step)
    end.
    exact (A _ _ _ _ H). }
  apply randint_Ok in R2.
  unfold now in R1. inversion R1; subst. cbn [clock_pos] in Hd.
  run_inv H. exists (clock_pos c2), d. cbn [User.created_at].
  repeat split; try lia. unfold timedelta. lia.
Qed.

Lemma generate_user_data_readings cfg w c users c' :
  generate_user_data cfg w c = Ok (users, c') ->
  Forall (fun u =>
            exists n d, (clock_pos c <= n < clock_pos c')%N /\
                        1 <= d <= 365 /\
                        User.created_at u = wall_clock w n - d * usec_per_day)
         users.
Proof.
  unfold generate_user_data.
  apply (for_each_Forall_between
           (fun c c' u =>
              exists n d, (clock_pos c <= n < clock_pos c')%N /\
                          1 <= d <= 365 /\
                          User.created_at u
                          = wall_clock w n - d * usec_per_day)).
  - intros c1 c2 c3 c4 u H12 H34 (n & d & Hn & Hd & Hu).
    exists n, d. repeat split; auto; lia.
  - intros x. apply advances_bind; [apply advances_generate_user|].
    intros. apply advances_ret.
  - intros x c1 o c2 _ H. run_inv H. constructor; [|constructor].
    eapply generate_user_reading; eassumption.
Qed.

Lemma generate_event_reading user_id session_id t w c e c' :
  generate_event user_id session_id t w c = Ok (e, c') ->
  exists n, (clock_pos c <= n < clock_pos c')%N /\
            Event.created_at e = wall_clock w n.
Proof.
  unfold generate_event. intros H. run_inv H.
  assert (A1 : forall a b, advances (randint a b))
    by (intros; repeat advances_step).
  assert (A2 : forall l : list string, advances (choice l))
    by (intros; repeat advances_step).
  assert (A3 : forall ty, advances (event_metadata ty))
    by (intros; unfold event_metadata; repeat advances_step).
  assert (A4 : advances generate_event_id)
    by (unfold generate_event_id; repeat advances_step).
  pose proof (A1 _ _ _ _ _ _ R). pose proof (A2 _ _ _ _ _ R0).
  pose proof (A3 _ _ _ _ _ R1). pose proof (A4 _ _ _ _ R2).
  pose proof (A2 _ _ _ _ _ R3). pose proof (A2 _ _ _ _ _ R4).
  pose proof (A1 _ _ _ _ _ _ R5). pose proof (A1 _ _ _ _ _ _ R6).
  pose proof (A1 _ _ _ _ _ _ R7).
  unfold now in R8. inversion R8; subst. cbn [clock_pos Event.created_at].
  exists (clock_pos c8). split; [lia|reflexivity].
Qed.

Lemma generate_day_readings cfg start_date user_id created k w c out c' :
  generate_day cfg start_date user_id created k w c = Ok (out, c') ->
  Forall (fun e => exists n, (clock_pos c <= n < clock_pos c')%N /\
                             Event.created_at e = wall_clock w n) out.
Proof.
  unfold generate_day. destruct (_ <? _).
  - intros H. run_inv H. constructor.
  - intros H. run_inv H.
    assert (A1 : forall a b, advances (randint a b))
      by (intros; repeat advances_step).
    assert (A2 : advances generate_session_id)
      by (unfold generate_session_id; repeat advances_step).
    pose proof (A1 _ _ _ _ _ _ R). pose proof (A2 _ _ _ _ R0).
    pose proof (A1 _ _ _ _ _ _ R1). pose proof (A1 _ _ _ _ _ _ R2).
    eapply Forall_impl;
      [|eapply (for_each_Forall_between
                  (fun c c' e =>
                     exists n, (clock_pos c <= n < clock_pos c')%N /\
                               Event.created_at e = wall_clock w n));
        [| |intros x c4 o c5 _ Hb; cbv beta|exact H]].
    + intros e (n & Hn & He). exists n. split; [lia|exact He].
    + intros c4 c5 c6 c7 e H45 H67 (n & Hn & He). exists n. split; [lia|auto].
    + intros x. apply advances_bind; [apply advances_generate_event|].
      intros. apply advances_ret.
    + run_inv Hb. constructor; [|constructor].
      eapply generate_event_reading; eassumption.
Qed.

Lemma generate_event_data_readings cfg users w c events c' :
  generate_event_data cfg users w c = Ok (events, c') ->
  (clock_pos c < clock_pos c')%N /\
  Forall (fun e => exists n, (clock_pos c < n < clock_pos c')%N /\
                             Event.created_at e = wall_clock w n) events.
Proof.
  unfold generate_event_data. intros H. run_inv H.
  unfold now in R. inversion R; subst. clear R.
  assert (Adv : forall user : User.t,
             advances (for_each (range (NUM_DAYS cfg))
                         (generate_day cfg
                            (wall_clock w (clock_pos c)
                             - timedelta (NUM_DAYS cfg) 0 0)
                            (User.user_id user) (User.created_at user)))).
  { intros. apply advances_for_each. intros. apply advances_generate_day. }
  split.
  - pose proof (advances_for_each users _ Adv _ _ _ _ H) as A.
    cbn [clock_pos] in A. lia.
  - eapply Forall_impl;
      [|eapply (for_each_Forall_between
                  (fun c c' e =>
                     exists n, (clock_pos c <= n < clock_pos c')%N /\
                               Event.created_at e = wall_clock w n));
        [|exact Adv|intros u c1 o c2 _ Ho; cbv beta in Ho|exact H]].
    + intros e (n & Hn & He). cbn [clock_pos] in Hn.
      exists n. split; [lia|exact He].
    + intros c4 c5 c6 c7 e H45 H67 (n & Hn & He). exists n. split; [lia|auto].
    + eapply (for_each_Forall_between
                (fun c c' e =>
                   exists n, (clock_pos c <= n < clock_pos c')%N /\
                             Event.created_at e = wall_clock w n));
        [| |intros k c3 o' c4 _ Hd|exact Ho].
      * intros c4 c5 c6 c7 e H45 H67 (n & Hn & He).
        exists n. split; [lia|auto].
      * intros. apply advances_generate_day.
      * eapply generate_day_readings; eassumption.
Qed.

(** X19: on a clock that does not go backwards, every event is recorded
    after it happened: its [created_at], read when the record is built, is
    later than its [event_timestamp]. *)
Theorem events_recorded_after_they_happen cfg users w c events c' :
  (forall n m, (n <= m)%N -> (m < clock_pos c')%N ->
               wall_clock w n <= wall_clock w m) ->
  generate_event_data cfg users w c = Ok (events, c') ->
  Forall (fun e => Event.event_timestamp e < Event.created_at e) events.
Proof.
  intros Hmono H.
  pose proof (generate_event_data_readings _ _ _ _ _ _ H) as [_ Hr].
  assert (Hw : Forall (fun e => Event.event_timestamp e
                                <= wall_clock w (clock_pos c)
                                   - timedelta 0 0 61) events).
  { unfold generate_event_data in H. run_inv H.
    apply now_Ok in R. subst a.
    eapply for_each_Forall; [|exact H].
    intros u ? o ? _ Ho. cbv beta in Ho.
    eapply for_each_Forall; [|exact Ho].
    intros k ? o' ? Hk Hd. apply range_In in Hk.
    apply generate_day_fields in Hd. destruct Hd as [Hd _].
    eapply Forall_impl; [|exact Hd].
    intros e (_ & _ & _ & _ & Hts). revert Hts.
    unfold timedelta, usec_per_day, usec_per_hour, usec_per_minute,
      usec_per_second. lia. }
  rewrite Forall_forall in *. intros e He.
  destruct (Hr e He) as (n & Hn & ->). specialize (Hw e He).
  assert (wall_clock w (clock_pos c) <= wall_clock w n)
    by (apply Hmono; lia).
  revert Hw. unfold timedelta, usec_per_minute, usec_per_second. lia.
Qed.

(** One user over two days, on the millisecond clock that starts at noon. *)
Lemma events_recorded_after_they_happen_witness :
  exists events c',
    generate_event_data (mk_config 1 2 (1, 2)) (sample_users 1)
      (noon_world []) start = Ok (events, c') /\
    Forall (fun e => Event.event_timestamp e < Event.created_at e) events.
Proof.
  eexists. eexists. split; [vm_compute; reflexivity|].
  eapply (events_recorded_after_they_happen (mk_config 1 2 (1, 2))
            (sample_users 1) (noon_world []) start).
  - intros n m Hnm _. unfold noon_world. cbn [wall_clock]. lia.
  - vm_compute. reflexivity.
Defined.

Lemma date_shift (t n : Z) : date (t + n * usec_per_day) = date t + n.
Proof. unfold date. apply Z.div_add. discriminate. Qed.

Lemma created_before_session (ru re d D k : Z) :
  ru <= re -> date ru = date re ->
  date (ru - d * usec_per_day)
    <= date (re - timedelta D 0 0 + timedelta k 0 0) ->
  ru - d * usec_per_day < re - timedelta D 0 0 + timedelta k 8 0.
Proof.
  intros Hle Hday Hdate.
  replace (ru - d * usec_per_day) with (ru + (- d) * usec_per_day) in Hdate
    by lia.
  replace (re - timedelta D 0 0 + timedelta k 0 0)
    with (re + (k - D) * usec_per_day) in Hdate by (unfold timedelta; lia).
  rewrite !date_shift in Hdate.
  assert (0 <= (k - D + d) * usec_per_day)
    by (apply Z.mul_nonneg_nonneg; [lia|discriminate]).
  unfold timedelta, usec_per_hour, usec_per_minute, usec_per_second in *.
  lia.
Qed.

Lemma generate_day_not_skipped cfg start_date user_id created k w c out c' :
  generate_day cfg start_date user_id created k w c = Ok (out, c') ->
  Forall (fun e =>
            Event.user_id e = user_id /\
            date created <= date (start_date + timedelta k 0 0) /\
            start_date + timedelta k 8 0 <= Event.event_timestamp e) out.
Proof.
  intros H. pose proof (generate_day_Ok _ _ _ _ _ _ _ _ _ H) as (_ & _ & F).
  unfold generate_day in H.
  destruct (Z.ltb_spec (date (start_date + timedelta k 0 0)) (date created))
    as [Hskip|Hdate].
  - run_inv H. constructor.
  - eapply Forall_impl; [|exact F]. intros e (A & _ & B & _). auto.
Qed.

Lemma NoDup_map_In_eq {A B} (f : A -> B) (l : list A) (x y : A) :
  NoDup (map f l) -> In x l -> In y l -> f x = f y -> x = y.
Proof.
  induction l as [|a l IH]; simpl; [tauto|].
  intros Hnd Hx Hy Hf. inversion Hnd as [|? ? Hnotin Hnd']; subst.
  destruct Hx as [->|Hx], Hy as [->|Hy]; auto.
  - exfalso. apply Hnotin. rewrite Hf. now apply in_map.
  - exfalso. apply Hnotin. rewrite <- Hf. now apply in_map.
Qed.

(** X20: when the clock readings of a run of [main] do not go backwards and
    fall on one calendar day, every event is dated after the creation of the
    user it was generated for; and when the user identifiers are pairwise
    distinct, after the creation of the user it names. *)
Theorem events_after_creation_on_a_steady_clock
    cfg w c users events sessions c' :
  steady_clock w (clock_pos c') ->
  main cfg w c = Ok ((users, events, sessions), c') ->
  Forall (fun e =>
            exists u, In u users /\ User.user_id u = Event.user_id e /\
                      User.created_at u < Event.event_timestamp e) events /\
  (NoDup (map User.user_id users) ->
   forall u e, In u users -> In e events ->
               Event.user_id e = User.user_id u ->
               User.created_at u < Event.event_timestamp e).
Proof.
  intros Hsteady H. unfold main in H. run_inv H. injection H as -> -> ->.
  rename a into users, a0 into events.
  pose proof (generate_user_data_readings _ _ _ _ _ R) as Hu.
  pose proof (generate_event_data_readings _ _ _ _ _ _ R0) as [Hlt _].
  assert (F : Forall (fun e =>
                exists u, In u users /\ User.user_id u = Event.user_id e /\
                          User.created_at u < Event.event_timestamp e) events).
  { unfold generate_event_data in R0. run_inv R0.
    apply now_Ok in R1. subst a.
    eapply for_each_Forall; [|exact R0].
    intros u ? o ? Hin Ho. cbv beta in Ho.
    eapply for_each_Forall; [|exact Ho].
    intros k ? o' ? _ Hd. apply generate_day_not_skipped in Hd.
    eapply Forall_impl; [|exact Hd].
    intros e (Hid & Hdate & Hts).
    exists u. repeat split; auto.
    rewrite Forall_forall in Hu.
    destruct (Hu u Hin) as (n & d & Hn & _ & Hc).
    destruct (Hsteady n (clock_pos c0)) as [Hle Hday]; [lia|lia|].
    rewrite Hc in *.
    pose proof (created_before_session _ _ _ _ _ Hle Hday Hdate). lia. }
  split; [exact F|].
  intros Hnd u e Hin He Hid. rewrite Forall_forall in F.
  destruct (F e He) as (u' & Hin' & Hid' & Hlt').
  assert (u' = u) as <-
      by (eapply (NoDup_map_In_eq User.user_id); eauto; congruence).
  exact Hlt'.
Qed.

(** One user, two days, on the clock that stands at noon: the user is
    created a day before noon and gets one event, at 20:00 of that day. *)
Lemma events_after_creation_on_a_steady_clock_witness :
  exists users events sessions c',
    main (mk_config 1 2 (1, 2)) frozen_noon_world start
      = Ok ((users, events, sessions), c') /\
    (Forall (fun e =>
               exists u, In u users /\ User.user_id u = Event.user_id e /\
                         User.created_at u < Event.event_timestamp e)
            events /\
     (NoDup (map User.user_id users) ->
      forall u e, In u users -> In e events ->
                  Event.user_id e = User.user_id u ->
                  User.created_at u < Event.event_timestamp e)).
Proof.
  eexists. eexists. eexists. eexists. split; [vm_compute; reflexivity|].
  eapply (events_after_creation_on_a_steady_clock (mk_config 1 2 (1, 2))
            frozen_noon_world start).
  - intros n m _ _. split; [simpl; lia|reflexivity].
  - vm_compute. reflexivity.
Defined.

(** ** Sessions and the blocks of events *)

(** X21: a session starts at the first of its events in list order and ends
    at the latest of them: no event of the session is later than [ended_at],
    which is the timestamp of one of them. *)
Theorem session_start_and_end (events : list Event.t) (s : Session.t) :
  In s (generate_session_data events) ->
  exists e0 r ended,
    group (Session.session_id s) events = e0 :: r /\
    Session.started_at s = Event.event_timestamp e0 /\
    Session.ended_at s = Some ended /\
    (forall e, In e events -> Event.session_id e = Session.session_id s ->
               Event.event_timestamp e <= ended) /\
    (exists e, In e events /\ Event.session_id e = Session.session_id s /\
               Event.event_timestamp e = ended).
Proof.
  intros H. destruct (session_of_group _ _ H) as (s0 & e0 & r & G & Hsum & ->).
  destruct (summary_ended _ _ Hsum) as (m & Hm & [U (e1 & He1 & Hts)]).
  destruct (set_duration_fixed s0) as (Hid & _ & Hst & Hen & _).
  rewrite Hid in *. rewrite Hst, Hen.
  exists e0, r, m. split; [exact G|].
  split; [now apply summary_first in Hsum|]. split; [exact Hm|]. split.
  - intros e He Hk. apply U. rewrite <- G. apply group_In. auto.
  - exists e1. rewrite <- G in He1. apply group_In in He1. tauto.
Qed.

(** Two events of one session, the later one first. *)
Lemma session_start_and_end_witness :
  let e1 := sample_event "user_a" "sess_1" "click" 10 "desktop" in
  let e2 := sample_event "user_a" "sess_1" "click" 5 "desktop" in
  let s := set_duration (fold_left absorb_event [e1; e2] (new_session e1)) in
  exists e0 r ended,
    group (Session.session_id s) [e1; e2] = e0 :: r /\
    Session.started_at s = Event.event_timestamp e0 /\
    Session.ended_at s = Some ended /\
    (forall e, In e [e1; e2] -> Event.session_id e = Session.session_id s ->
               Event.event_timestamp e <= ended) /\
    (exists e, In e [e1; e2] /\ Event.session_id e = Session.session_id s /\
               Event.event_timestamp e = ended).
Proof.
  cbv zeta.
  apply (session_start_and_end
           [sample_event "user_a" "sess_1" "click" 10 "desktop";
            sample_event "user_a" "sess_1" "click" 5 "desktop"]).
  simpl. left. reflexivity.
Defined.

(** X22: when the events come in blocks as [generate_event_data] builds
    them, and no session identifier occurs in two blocks, every derived
    session lasts at most 7200 seconds and all its events have the user the
    record names. *)
Theorem sessions_of_separate_blocks (blocks : list (list Event.t))
    (s : Session.t) :
  Forall day_block blocks ->
  separate_sessions blocks ->
  In s (generate_session_data (List.concat blocks)) ->
  (exists d, Session.duration_seconds s = Some d /\ 0 <= d <= 7200) /\
  (forall e, In e (List.concat blocks) ->
             Event.session_id e = Session.session_id s ->
             Event.user_id e = Session.user_id s).
Proof.
  intros Hblocks Hsep H.
  destruct (session_span _ _ H) as (m & Hm & Hle & Hd).
  destruct (session_of_group _ _ H) as (s0 & e0 & r & G & Hsum & ->).
  destruct (summary_ended _ _ Hsum) as (m' & Hm' & [_ (e1 & He1 & Hts)]).
  destruct (set_duration_fixed s0) as (Hid & Hu & Hst & Hen & _).
  rewrite Hid in *. rewrite Hu. rewrite Hst in *. rewrite Hen in Hm.
  assert (m' = m) as -> by congruence. clear Hm'.
  pose proof (summary_first _ _ _ Hsum) as (_ & Hu0 & Hst0 & _).
  assert (In e0 (group (Session.session_id s0) (List.concat blocks))) as He0
      by (rewrite G; now left).
  rewrite <- G in He1.
  apply group_In in He0. apply group_In in He1.
  destruct He0 as [He0 Hk0], He1 as [He1 Hk1].
  apply in_concat in He0. destruct He0 as (b0 & Hb0 & He0).
  assert (Hsame : forall e, In e (List.concat blocks) ->
                            Event.session_id e = Session.session_id s0 ->
                            In e b0).
  { intros e He Hk. apply in_concat in He. destruct He as (b & Hb & He).
    rewrite (Hsep b0 b e0 e Hb0 Hb He0 He); [assumption|congruence]. }
  rewrite Forall_forall in Hblocks.
  destruct (Hblocks b0 Hb0) as (sid & uid & t0 & Hwin).
  rewrite Forall_forall in Hwin. split.
  - destruct (Hwin e0 He0) as (_ & _ & W0).
    destruct (Hwin e1 (Hsame e1 He1 Hk1)) as (_ & _ & W1).
    eexists. split; [exact Hd|].
    assert (m - Session.started_at s0 <= 7200 * usec_per_second).
    { rewrite Hst0, <- Hts. revert W0 W1.
      unfold timedelta, usec_per_minute, usec_per_second. lia. }
    rewrite total_seconds_int_exact
      by (split; [lia|]; change (2 ^ 34) with 17179869184;
          unfold usec_per_second in *; lia).
    split; [apply Z.div_pos; [lia|reflexivity]|].
    apply Z.div_le_upper_bound; [reflexivity|]. lia.
  - intros e He Hk.
    destruct (Hwin e (Hsame e He Hk)) as (_ & -> & _).
    destruct (Hwin e0 He0) as (_ & <- & _). now rewrite Hu0.
Qed.

(** One block of two events, two minutes apart. *)
Lemma sessions_of_separate_blocks_witness :
  let e1 := sample_event "user_a" "sess_1" "click" 10 "desktop" in
  let e2 := sample_event "user_a" "sess_1" "page_view" 12 "desktop" in
  let s := set_duration (fold_left absorb_event [e1; e2] (new_session e1)) in
  (exists d, Session.duration_seconds s = Some d /\ 0 <= d <= 7200) /\
  (forall e, In e (List.concat [[e1; e2]]) ->
             Event.session_id e = Session.session_id s ->
             Event.user_id e = Session.user_id s).
Proof.
  cbv zeta.
  apply (sessions_of_separate_blocks
           [[sample_event "user_a" "sess_1" "click" 10 "desktop";
             sample_event "user_a" "sess_1" "page_view" 12 "desktop"]]).
  - constructor; [|constructor].
    exists "sess_1"%string, "user_a"%string, (timedelta 0 9 10).
    repeat constructor; vm_compute; discriminate.
  - intros b1 b2 e1 e2 [<-|[]] [<-|[]] _ _ _. reflexivity.
  - simpl. left. reflexivity.
Defined.

(** ** Metadata values *)

Ltac metadata_value :=
  unfold metadata_value_ok; cbn [fst snd]; simpl String.eqb; cbv iota;
  first
    [ eexists; split; [reflexivity|]; eapply choice_Ok; eassumption
    | eexists; split; [reflexivity|]; simpl; tauto
    | eexists; split; [reflexivity|]; eapply randint_Ok; eassumption
    | eexists; reflexivity ].

Lemma In_weaken_pages (s : string) :
  In s ["/home"; "/products"; "/checkout"; "/profile"]%string ->
  In s ["/home"; "/products"; "/checkout"; "/profile"; "/search"]%string.
Proof. simpl. tauto. Qed.

Lemma event_metadata_values (event_type : string) w c md c' :
  event_metadata event_type w c = Ok (md, c') ->
  Forall (fun kv => metadata_value_ok (fst kv) (snd kv)) md.
Proof.
  unfold event_metadata. intros H.
  repeat match type of H with
    | context [if ?b then _ else _] => destruct b
    end; run_inv H;
    repeat (apply Forall_cons; [try metadata_value|]); try apply Forall_nil.
  unfold metadata_value_ok; cbn [fst snd]; simpl String.eqb; cbv iota.
  eexists. split; [reflexivity|]. apply In_weaken_pages.
  eapply choice_Ok; eassumption.
Qed.

(** X23: the values of an event's metadata come from fixed pools: the
    currency, product, category, page, source, campaign, element and query
    are members of the lists written in the code, and a search's result count
    lies in 0..100. *)
Theorem metadata_values cfg users w c events c' :
  generate_event_data cfg users w c = Ok (events, c') ->
  Forall (fun e =>
            Forall (fun kv => metadata_value_ok (fst kv) (snd kv))
                   (Event.metadata e)) events.
Proof.
  unfold generate_event_data. intros H. run_inv H.
  eapply for_each_Forall; [|exact H].
  intros u ? o ? _ Ho. cbv beta in Ho.
  eapply for_each_Forall; [|exact Ho].
  intros k ? o' ? _ Hd. unfold generate_day in Hd.
  destruct (_ <? _); run_inv Hd; [constructor|].
  eapply for_each_Forall; [|exact Hd].
  intros x ? o1 ? _ Hb. run_inv Hb. constructor; [|constructor].
  match goal with
  | Hg : generate_event _ _ _ _ _ = Ok _ |- _ =>
      unfold generate_event in Hg; run_inv Hg
  end.
  cbn [Event.metadata]. eapply event_metadata_values; eassumption.
Qed.

(** One user over two days. *)
Lemma metadata_values_witness :
  exists events c',
    generate_event_data (mk_config 1 2 (1, 2)) (sample_users 1)
      (noon_world []) start = Ok (events, c') /\
    Forall (fun e =>
              Forall (fun kv => metadata_value_ok (fst kv) (snd kv))
                     (Event.metadata e)) events.
Proof.
  eexists. eexists. split; [vm_compute; reflexivity|].
  eapply (metadata_values (mk_config 1 2 (1, 2)) (sample_users 1)
            (noon_world []) start).
  vm_compute. reflexivity.
Defined.
